(** * Admin dashboard API (api/main.py): business rules of the handlers

    A shallow embedding of the request handlers of [api/main.py]: enrollment
    creation, customer soft-deletion, financial aggregation, partnership
    statistics and user management.  Each handler is a function of the
    request, the acting user, the session (the four tables) and, where the
    source reads the clock ([datetime.utcnow()]), the current time; it
    returns the new session and the response, or the exception it raises.

    Conventions.
    - A table is the list of its rows in storage order; [query.filter(..)]
      is [filter], [.all()] the list itself, [.first()] its head.
    - Amounts and prices are integers ([Z]).
    - A mutation of an ORM row followed by [db.commit()] rewrites that row in
      its table. *)

From Stdlib Require Import ZArith List String Bool Lia Permutation Sorted.
Import ListNotations.
Local Open Scope string_scope.
Local Open Scope Z_scope.
Local Open Scope list_scope.

(** ** Exceptions and results *)

Inductive status :=
| HTTP_400_BAD_REQUEST
| HTTP_403_FORBIDDEN
| HTTP_404_NOT_FOUND.

Inductive exception :=
| HTTPException (status_code : status) (detail : string)
| OverflowError.

Inductive result (A : Type) :=
| Ok (a : A)
| Raise (e : exception).
Arguments Ok {A} a.
Arguments Raise {A} e.

Definition bind {A B} (m : result A) (k : A -> result B) : result B :=
  match m with
  | Ok a => k a
  | Raise e => Raise e
  end.

Notation "x <- m ;; k" := (bind m (fun x => k))
  (at level 61, m at next level, right associativity).

(** The tables after a request: every [raise] of the handlers comes before
    the first write, so a request that raises leaves the session as it was. *)
Definition session_after {S A} (db : S) (r : result (S * A)) : S :=
  match r with
  | Ok (db', _) => db'
  | Raise _ => db
  end.

(** The status an exception reaches the client with; the spec's names are
    InvalidReference/Conflict (400), Forbidden (403) and NotFound (404). *)
Definition status_of (e : exception) : option status :=
  match e with
  | HTTPException s _ => Some s
  | OverflowError => None
  end.

(** ** Python built-ins used by the handlers *)

(** [sum(xs)]: left to right, from 0. *)
Definition sum (xs : list Z) : Z := fold_left Z.add xs 0.

(** [q.first()] *)
Definition first {A} (rows : list A) : option A := hd_error rows.

(** [bool(s)] of a string, as in [if customer.partnership_code:]. *)
Definition truthy (s : option string) : bool :=
  match s with
  | None => false
  | Some s => negb (String.eqb s EmptyString)
  end.

(** [json.dumps] / [json.loads] on the camps and prices columns.  A Text
    column is kept as the JSON value its text spells, [None] being a NULL
    (or empty) column: [loads (dumps v) = v] is how the json module behaves
    on lists of strings and of numbers. *)
Module json.
Definition Text (A : Type) := option A.
Definition dumps {A} (v : A) : Text A := Some v.
(** [json.loads(col) if col else []] *)
Definition loads_or_empty {A} (col : Text (list A)) : list A :=
  match col with
  | Some v => v
  | None => []
  end.
End json.

(** ** datetime *)

Module datetime.

Record t := mk {
  year : Z; month : Z; day : Z;
  hour : Z; minute : Z; second : Z; microsecond : Z
}.

Definition MINYEAR := 1.
Definition MAXYEAR := 9999.

Definition _is_leap (y : Z) : bool :=
  (y mod 4 =? 0) && (negb (y mod 100 =? 0) || (y mod 400 =? 0)).

Definition _DAYS_IN_MONTH : list Z :=
  [0; 31; 28; 31; 30; 31; 30; 31; 31; 30; 31; 30; 31].

Definition _DAYS_BEFORE_MONTH : list Z :=
  [0; 0; 31; 59; 90; 120; 151; 181; 212; 243; 273; 304; 334].

Definition _days_before_year (y : Z) : Z :=
  let y := y - 1 in y * 365 + y / 4 - y / 100 + y / 400.

Definition _days_in_month (y m : Z) : Z :=
  if (m =? 2) && _is_leap y then 29
  else nth (Z.to_nat m) _DAYS_IN_MONTH 0.

Definition _days_before_month (y m : Z) : Z :=
  nth (Z.to_nat m) _DAYS_BEFORE_MONTH 0
  + (if (2 <? m) && _is_leap y then 1 else 0).

Definition _ymd2ord (y m d : Z) : Z :=
  _days_before_year y + _days_before_month y m + d.

Definition toordinal (d : t) : Z := _ymd2ord (year d) (month d) (day d).

(** Monday is 0, Sunday is 6. *)
Definition weekday (d : t) : Z := (toordinal d + 6) mod 7.

(** The values a [datetime] object can hold. *)
Definition valid (d : t) : bool :=
  (MINYEAR <=? year d) && (year d <=? MAXYEAR)
  && (1 <=? month d) && (month d <=? 12)
  && (1 <=? day d) && (day d <=? _days_in_month (year d) (month d))
  && (0 <=? hour d) && (hour d <? 24)
  && (0 <=? minute d) && (minute d <? 60)
  && (0 <=? second d) && (second d <? 60)
  && (0 <=? microsecond d) && (microsecond d <? 1000000).

(** Comparison is that of the tuples (year, month, day, hour, minute,
    second, microsecond). *)
Definition _getstate (d : t) : list Z :=
  [year d; month d; day d; hour d; minute d; second d; microsecond d].

Fixpoint _cmp (x y : list Z) : comparison :=
  match x, y with
  | [], [] => Eq
  | [], _ :: _ => Lt
  | _ :: _, [] => Gt
  | a :: x', b :: y' =>
      match a ?= b with
      | Eq => _cmp x' y'
      | c => c
      end
  end.

(** [a >= b] *)
Definition ge (a b : t) : bool :=
  match _cmp (_getstate a) (_getstate b) with
  | Lt => false
  | _ => true
  end.

(** [d.replace(hour=0, minute=0, second=0, microsecond=0)] *)
Definition replace_midnight (d : t) : t :=
  mk (year d) (month d) (day d) 0 0 0 0.

(** [d.replace(day=1, hour=0, minute=0, second=0, microsecond=0)] *)
Definition replace_day1_midnight (d : t) : t :=
  mk (year d) (month d) 1 0 0 0 0.

(** [d.replace(month=1, day=1, hour=0, minute=0, second=0, microsecond=0)] *)
Definition replace_jan1_midnight (d : t) : t :=
  mk (year d) 1 1 0 0 0 0.

(** The day before, at the same time of day. *)
Definition prev_day (d : t) : t :=
  if 1 <? day d then
    mk (year d) (month d) (day d - 1)
       (hour d) (minute d) (second d) (microsecond d)
  else if 1 <? month d then
    mk (year d) (month d - 1) (_days_in_month (year d) (month d - 1))
       (hour d) (minute d) (second d) (microsecond d)
  else
    mk (year d - 1) 12 31
       (hour d) (minute d) (second d) (microsecond d).

(** [d - timedelta(days=n)] for [n >= 0]: the date [n] days earlier, same
    time of day; Python raises OverflowError when that date lies before
    year [MINYEAR]. *)
Definition sub_days (d : t) (n : Z) : result t :=
  let r := Nat.iter (Z.to_nat n) prev_day d in
  if year r <? MINYEAR then Raise OverflowError else Ok r.

End datetime.

(** ** Rows of the four tables and request bodies

    Modelled from the spec: api/database.py and api/models.py are not among
    the sources; the records below have the attributes the handlers read and
    write, with the types of section 3 of the specification. *)

Module User.
Record t := mk {
  id : Z;
  email : string;
  hashed_password : string;
  is_active : bool;
  can_manage_customers : bool;
  can_view_financials : bool;
  can_manage_partnership_codes : bool;
  can_view_partnership_stats : bool;
  can_manage_access : bool
}.
End User.

Module Customer.
Record t := mk {
  id : Z;
  full_name : string;
  phone : string;
  email : string;
  class_level : string;
  camps : json.Text (list string);
  prices : json.Text (list Z);
  partnership_code : option string;
  previous_yks_rank : option Z;
  city : string;
  is_paid : bool;
  is_deleted : bool;
  deleted_at : option datetime.t;
  created_at : datetime.t
}.
End Customer.

Module PartnershipCode.
Record t := mk {
  id : Z;
  code : string;
  is_active : bool;
  created_at : datetime.t
}.
End PartnershipCode.

Module FinancialTransaction.
Record t := mk {
  id : Z;
  customer_id : Z;
  amount : Z;
  transaction_date : datetime.t;
  is_deleted : bool
}.
End FinancialTransaction.

Module CustomerCreate.
Record t := mk {
  full_name : string;
  phone : string;
  email : string;
  class_level : string;
  camps : list string;
  prices : list Z;
  partnership_code : option string;
  previous_yks_rank : option Z;
  city : string
}.
End CustomerCreate.

Module CustomerResponse.
Record t := mk {
  row : Customer.t;
  camps : list string;
  prices : list Z
}.
End CustomerResponse.

Module PartnershipCodeCreate.
Record t := mk { code : string }.
End PartnershipCodeCreate.

Module PartnershipStats.
Record t := mk {
  code : string;
  customer_count : Z;
  total_amount : Z
}.
End PartnershipStats.

Module FinancialPeriod.
Record t := mk { daily : Z; weekly : Z; monthly : Z; yearly : Z }.
End FinancialPeriod.

Module FinancialDetail.
Record t := mk {
  customer_id : Z;
  customer_name : string;
  amount : Z;
  transaction_date : datetime.t
}.
End FinancialDetail.

Module FinancialResponse.
Record t := mk {
  period : FinancialPeriod.t;
  details : list FinancialDetail.t;
  total : Z
}.
End FinancialResponse.

Module UserCreate.
Record t := mk {
  email : string;
  password : string;
  can_manage_customers : bool;
  can_view_financials : bool;
  can_manage_partnership_codes : bool;
  can_view_partnership_stats : bool;
  can_manage_access : bool
}.
End UserCreate.

(** Every field is [Optional[bool]]: [None] is a field the caller left out. *)
Module UserUpdate.
Record t := mk {
  can_manage_customers : option bool;
  can_view_financials : option bool;
  can_manage_partnership_codes : option bool;
  can_view_partnership_stats : option bool;
  can_manage_access : option bool;
  is_active : option bool
}.
End UserUpdate.

(** ** The session: the four tables *)

Record Session := mkSession {
  users : list User.t;
  customers : list Customer.t;
  partnership_codes : list PartnershipCode.t;
  financial_transactions : list FinancialTransaction.t
}.

(** The primary key the store gives a row added to a table whose keys are
    [ids]: one more than the largest key in use (rows are never removed). *)
Definition next_id (ids : list Z) : Z := fold_right Z.max 0 ids + 1.

(** Rewrite the first row that satisfies [p], the row [.first()] returned. *)
Fixpoint update_first {A} (p : A -> bool) (f : A -> A) (rows : list A) : list A :=
  match rows with
  | [] => []
  | r :: rows' => if p r then f r :: rows' else r :: update_first p f rows'
  end.

(** Rewrite every row that satisfies [p], the rows [.all()] returned. *)
Definition update_all {A} (p : A -> bool) (f : A -> A) (rows : list A) : list A :=
  map (fun r => if p r then f r else r) rows.

Definition option_string_eqb (a b : option string) : bool :=
  match a, b with
  | Some x, Some y => String.eqb x y
  | _, _ => false
  end.

(** Attribute assignments on rows. *)

Definition Customer_set_is_deleted (c : Customer.t) (v : bool) : Customer.t :=
  Customer.mk (Customer.id c) (Customer.full_name c) (Customer.phone c)
    (Customer.email c) (Customer.class_level c) (Customer.camps c)
    (Customer.prices c) (Customer.partnership_code c)
    (Customer.previous_yks_rank c) (Customer.city c) (Customer.is_paid c)
    v (Customer.deleted_at c) (Customer.created_at c).

Definition Customer_set_deleted_at (c : Customer.t) (v : option datetime.t)
  : Customer.t :=
  Customer.mk (Customer.id c) (Customer.full_name c) (Customer.phone c)
    (Customer.email c) (Customer.class_level c) (Customer.camps c)
    (Customer.prices c) (Customer.partnership_code c)
    (Customer.previous_yks_rank c) (Customer.city c) (Customer.is_paid c)
    (Customer.is_deleted c) v (Customer.created_at c).

Definition FinancialTransaction_set_is_deleted
  (t : FinancialTransaction.t) (v : bool) : FinancialTransaction.t :=
  FinancialTransaction.mk (FinancialTransaction.id t)
    (FinancialTransaction.customer_id t) (FinancialTransaction.amount t)
    (FinancialTransaction.transaction_date t) v.

Definition PartnershipCode_set_is_active (c : PartnershipCode.t) (v : bool)
  : PartnershipCode.t :=
  PartnershipCode.mk (PartnershipCode.id c) (PartnershipCode.code c) v
    (PartnershipCode.created_at c).

Definition User_set_is_active (u : User.t) (v : bool) : User.t :=
  User.mk (User.id u) (User.email u) (User.hashed_password u) v
    (User.can_manage_customers u) (User.can_view_financials u)
    (User.can_manage_partnership_codes u) (User.can_view_partnership_stats u)
    (User.can_manage_access u).

Definition User_set_can_manage_customers (u : User.t) (v : bool) : User.t :=
  User.mk (User.id u) (User.email u) (User.hashed_password u)
    (User.is_active u) v (User.can_view_financials u)
    (User.can_manage_partnership_codes u) (User.can_view_partnership_stats u)
    (User.can_manage_access u).

Definition User_set_can_view_financials (u : User.t) (v : bool) : User.t :=
  User.mk (User.id u) (User.email u) (User.hashed_password u)
    (User.is_active u) (User.can_manage_customers u) v
    (User.can_manage_partnership_codes u) (User.can_view_partnership_stats u)
    (User.can_manage_access u).

Definition User_set_can_manage_partnership_codes (u : User.t) (v : bool)
  : User.t :=
  User.mk (User.id u) (User.email u) (User.hashed_password u)
    (User.is_active u) (User.can_manage_customers u)
    (User.can_view_financials u) v (User.can_view_partnership_stats u)
    (User.can_manage_access u).

Definition User_set_can_view_partnership_stats (u : User.t) (v : bool)
  : User.t :=
  User.mk (User.id u) (User.email u) (User.hashed_password u)
    (User.is_active u) (User.can_manage_customers u)
    (User.can_view_financials u) (User.can_manage_partnership_codes u) v
    (User.can_manage_access u).

Definition User_set_can_manage_access (u : User.t) (v : bool) : User.t :=
  User.mk (User.id u) (User.email u) (User.hashed_password u)
    (User.is_active u) (User.can_manage_customers u)
    (User.can_view_financials u) (User.can_manage_partnership_codes u)
    (User.can_view_partnership_stats u) v.

(** [db.add(row); db.commit()] on each table. *)

Definition add_customer (db : Session) (c : Customer.t) : Session :=
  mkSession (users db) (customers db ++ [c]) (partnership_codes db)
    (financial_transactions db).

Definition add_transaction (db : Session) (t : FinancialTransaction.t)
  : Session :=
  mkSession (users db) (customers db) (partnership_codes db)
    (financial_transactions db ++ [t]).

Definition add_partnership_code (db : Session) (c : PartnershipCode.t)
  : Session :=
  mkSession (users db) (customers db) (partnership_codes db ++ [c])
    (financial_transactions db).

Definition add_user (db : Session) (u : User.t) : Session :=
  mkSession (users db ++ [u]) (customers db) (partnership_codes db)
    (financial_transactions db).

(** Modelled from the spec: the column defaults of api/database.py, which is
    not among the sources.  A new Customer is not deleted, has no deletion
    timestamp and is stamped with the creation time. *)
Definition Customer_new (id : Z) (full_name phone email class_level : string)
  (camps : json.Text (list string)) (prices : json.Text (list Z))
  (partnership_code : option string) (previous_yks_rank : option Z)
  (city : string) (is_paid : bool) (now : datetime.t) : Customer.t :=
  Customer.mk id full_name phone email class_level camps prices
    partnership_code previous_yks_rank city is_paid false None now.

(** Modelled from the spec: the column defaults of api/database.py.  A new
    FinancialTransaction is not deleted and its timestamp defaults to the
    creation time. *)
Definition FinancialTransaction_new (id customer_id amount : Z)
  (now : datetime.t) : FinancialTransaction.t :=
  FinancialTransaction.mk id customer_id amount now false.

(** Modelled from the spec: the column defaults of api/database.py.  A new
    PartnershipCode is active and stamped with the creation time. *)
Definition PartnershipCode_new (id : Z) (code : string) (now : datetime.t)
  : PartnershipCode.t :=
  PartnershipCode.mk id code true now.

(** Modelled from the spec: the column defaults of api/database.py.  A new
    User is active. *)
Definition User_new (id : Z) (email hashed_password : string)
  (can_manage_customers can_view_financials can_manage_partnership_codes
     can_view_partnership_stats can_manage_access : bool) : User.t :=
  User.mk id email hashed_password true can_manage_customers
    can_view_financials can_manage_partnership_codes
    can_view_partnership_stats can_manage_access.

(** ** Customer endpoints *)

(** POST /api/customers *)
Definition create_customer (customer : CustomerCreate.t) (current_user : User.t)
  (db : Session) (now : datetime.t) : result (Session * CustomerResponse.t) :=
  (* Validate partnership code if provided *)
  _ <- (if truthy (CustomerCreate.partnership_code customer) then
          let partnership_code :=
            first (filter
                     (fun pc =>
                        option_string_eqb (Some (PartnershipCode.code pc))
                          (CustomerCreate.partnership_code customer)
                        && Bool.eqb (PartnershipCode.is_active pc) true)
                     (partnership_codes db)) in
          match partnership_code with
          | None => Raise (HTTPException HTTP_400_BAD_REQUEST
                             "Invalid or inactive partnership code")
          | Some _ => Ok tt
          end
        else Ok tt) ;;
  (* Calculate total price *)
  let total_price := sum (CustomerCreate.prices customer) in
  let db_customer :=
    Customer_new
      (next_id (map Customer.id (customers db)))
      (CustomerCreate.full_name customer)
      (CustomerCreate.phone customer)
      (CustomerCreate.email customer)
      (CustomerCreate.class_level customer)
      (json.dumps (CustomerCreate.camps customer))
      (json.dumps (CustomerCreate.prices customer))
      (CustomerCreate.partnership_code customer)
      (CustomerCreate.previous_yks_rank customer)
      (CustomerCreate.city customer)
      (if 0 <? total_price then true else false)
      now in
  let db := add_customer db db_customer in
  (* Create financial transaction *)
  let db :=
    if 0 <? total_price then
      let transaction :=
        FinancialTransaction_new
          (next_id (map FinancialTransaction.id (financial_transactions db)))
          (Customer.id db_customer) total_price now in
      add_transaction db transaction
    else db in
  Ok (db,
      CustomerResponse.mk db_customer
        (json.loads_or_empty (Customer.camps db_customer))
        (json.loads_or_empty (Customer.prices db_customer))).

(** DELETE /api/customers/{customer_id} *)
Definition delete_customer (customer_id : Z) (current_user : User.t)
  (db : Session) (now : datetime.t) : result (Session * string) :=
  let customer :=
    first (filter (fun c => Customer.id c =? customer_id) (customers db)) in
  match customer with
  | None => Raise (HTTPException HTTP_404_NOT_FOUND "Customer not found")
  | Some _ =>
      let customers' :=
        update_first (fun c => Customer.id c =? customer_id)
          (fun customer =>
             Customer_set_deleted_at (Customer_set_is_deleted customer true)
               (Some now))
          (customers db) in
      (* Mark financial transactions as deleted *)
      let transactions' :=
        update_all
          (fun t => (FinancialTransaction.customer_id t =? customer_id)
                    && Bool.eqb (FinancialTransaction.is_deleted t) false)
          (fun transaction =>
             FinancialTransaction_set_is_deleted transaction true)
          (financial_transactions db) in
      Ok (mkSession (users db) customers' (partnership_codes db) transactions',
          "Customer marked as deleted (payment not received)")
  end.

(** ** Financial endpoint *)

(** One turn of the loop that builds [details]. *)
Definition details_step (db : Session) (details : list FinancialDetail.t)
  (transaction : FinancialTransaction.t) : list FinancialDetail.t :=
  let customer :=
    first (filter
             (fun c => Customer.id c
                       =? FinancialTransaction.customer_id transaction)
             (customers db)) in
  match customer with
  | Some customer =>
      if negb (Customer.is_deleted customer) then
        details ++ [FinancialDetail.mk (Customer.id customer)
                      (Customer.full_name customer)
                      (FinancialTransaction.amount transaction)
                      (FinancialTransaction.transaction_date transaction)]
      else details
  | None => details
  end.

(** [sum(t.amount for t in all_transactions if t.transaction_date >= start)] *)
Definition window_total (all_transactions : list FinancialTransaction.t)
  (start : datetime.t) : Z :=
  sum (map FinancialTransaction.amount
         (filter (fun t => datetime.ge (FinancialTransaction.transaction_date t)
                             start)
            all_transactions)).

(** GET /api/financials *)
Definition get_financials (current_user : User.t) (db : Session)
  (now : datetime.t) : result FinancialResponse.t :=
  let today_start := datetime.replace_midnight now in
  week_start <- datetime.sub_days today_start (datetime.weekday now) ;;
  let month_start := datetime.replace_day1_midnight now in
  let year_start := datetime.replace_jan1_midnight now in
  (* Get all active transactions *)
  let all_transactions :=
    filter (fun t => Bool.eqb (FinancialTransaction.is_deleted t) false)
      (financial_transactions db) in
  (* Calculate totals *)
  let daily_total := window_total all_transactions today_start in
  let weekly_total := window_total all_transactions week_start in
  let monthly_total := window_total all_transactions month_start in
  let yearly_total := window_total all_transactions year_start in
  let total := sum (map FinancialTransaction.amount all_transactions) in
  (* Get details with customer info *)
  let details := fold_left (details_step db) all_transactions [] in
  Ok (FinancialResponse.mk
        (FinancialPeriod.mk daily_total weekly_total monthly_total yearly_total)
        details total).

(** ** Partnership code endpoints *)

(** POST /api/partnership-codes *)
Definition create_partnership_code (code_data : PartnershipCodeCreate.t)
  (current_user : User.t) (db : Session) (now : datetime.t)
  : result (Session * PartnershipCode.t) :=
  let existing :=
    first (filter
             (fun pc => String.eqb (PartnershipCode.code pc)
                          (PartnershipCodeCreate.code code_data))
             (partnership_codes db)) in
  match existing with
  | Some _ => Raise (HTTPException HTTP_400_BAD_REQUEST
                       "Partnership code already exists")
  | None =>
      let partnership_code :=
        PartnershipCode_new
          (next_id (map PartnershipCode.id (partnership_codes db)))
          (PartnershipCodeCreate.code code_data) now in
      Ok (add_partnership_code db partnership_code, partnership_code)
  end.

(** DELETE /api/partnership-codes/{code_id} *)
Definition delete_partnership_code (code_id : Z) (current_user : User.t)
  (db : Session) : result (Session * string) :=
  let code :=
    first (filter (fun pc => PartnershipCode.id pc =? code_id)
             (partnership_codes db)) in
  match code with
  | None => Raise (HTTPException HTTP_404_NOT_FOUND
                     "Partnership code not found")
  | Some _ =>
      Ok (mkSession (users db) (customers db)
            (update_first (fun pc => PartnershipCode.id pc =? code_id)
               (fun code => PartnershipCode_set_is_active code false)
               (partnership_codes db))
            (financial_transactions db),
          "Partnership code deactivated")
  end.

(** [sorted(xs, key=key, reverse=True)]: a stable sort, largest key first;
    rows with equal keys keep the order they have in [xs]. *)
Fixpoint insert_reverse {A} (key : A -> Z) (x : A) (sorted : list A) : list A :=
  match sorted with
  | [] => [x]
  | y :: sorted' =>
      if key x <? key y then y :: insert_reverse key x sorted'
      else x :: sorted
  end.

Definition sorted_reverse {A} (key : A -> Z) (xs : list A) : list A :=
  fold_right (insert_reverse key) [] xs.

(** The body of the loop over [codes]. *)
Definition stats_step (db : Session) (stats : list PartnershipStats.t)
  (code : PartnershipCode.t) : list PartnershipStats.t :=
  let customers :=
    filter (fun c =>
              option_string_eqb (Customer.partnership_code c)
                (Some (PartnershipCode.code code))
              && Bool.eqb (Customer.is_deleted c) false)
      (customers db) in
  let total_amount :=
    fold_left
      (fun total_amount customer =>
         let prices := json.loads_or_empty (Customer.prices customer) in
         total_amount + sum prices)
      customers 0 in
  stats ++ [PartnershipStats.mk (PartnershipCode.code code)
              (Z.of_nat (List.length customers)) total_amount].

(** GET /api/partnership-stats *)
Definition get_partnership_stats (current_user : User.t) (db : Session)
  : list PartnershipStats.t :=
  let codes := partnership_codes db in
  let stats := fold_left (stats_step db) codes [] in
  sorted_reverse PartnershipStats.total_amount stats.

(** ** User management endpoints *)

Definition protected_emails : list string :=
  ["gokhan@kampus.com"; "emre@kampus.com"].

(** [email in protected_emails] *)
Definition is_protected (email : string) : bool :=
  existsb (String.eqb email) protected_emails.

(** POST /api/users; [get_password_hash] is api/auth.py's. *)
Definition create_user (get_password_hash : string -> string)
  (user_data : UserCreate.t) (current_user : User.t) (db : Session)
  : result (Session * User.t) :=
  let existing :=
    first (filter (fun u => String.eqb (User.email u) (UserCreate.email user_data))
             (users db)) in
  match existing with
  | Some _ => Raise (HTTPException HTTP_400_BAD_REQUEST
                       "User with this email already exists")
  | None =>
      let user :=
        User_new (next_id (map User.id (users db)))
          (UserCreate.email user_data)
          (get_password_hash (UserCreate.password user_data))
          (UserCreate.can_manage_customers user_data)
          (UserCreate.can_view_financials user_data)
          (UserCreate.can_manage_partnership_codes user_data)
          (UserCreate.can_view_partnership_stats user_data)
          (UserCreate.can_manage_access user_data) in
      Ok (add_user db user, user)
  end.

(** [if value is not None: set(user, value)] *)
Definition set_if_provided (set : User.t -> bool -> User.t)
  (value : option bool) (user : User.t) : User.t :=
  match value with
  | Some v => set user v
  | None => user
  end.

(** The six conditional assignments of [update_user], in source order. *)
Definition update_fields (user_data : UserUpdate.t) (user : User.t) : User.t :=
  let user := set_if_provided User_set_can_manage_customers
                (UserUpdate.can_manage_customers user_data) user in
  let user := set_if_provided User_set_can_view_financials
                (UserUpdate.can_view_financials user_data) user in
  let user := set_if_provided User_set_can_manage_partnership_codes
                (UserUpdate.can_manage_partnership_codes user_data) user in
  let user := set_if_provided User_set_can_view_partnership_stats
                (UserUpdate.can_view_partnership_stats user_data) user in
  let user := set_if_provided User_set_can_manage_access
                (UserUpdate.can_manage_access user_data) user in
  let user := set_if_provided User_set_is_active
                (UserUpdate.is_active user_data) user in
  user.

(** PUT /api/users/{user_id} *)
Definition update_user (user_id : Z) (user_data : UserUpdate.t)
  (current_user : User.t) (db : Session) : result (Session * User.t) :=
  let user := first (filter (fun u => User.id u =? user_id) (users db)) in
  match user with
  | None => Raise (HTTPException HTTP_404_NOT_FOUND "User not found")
  | Some user =>
      if is_protected (User.email user) then
        Raise (HTTPException HTTP_403_FORBIDDEN
                 "Cannot modify protected user accounts")
      else
        (* Update fields *)
        Ok (mkSession
              (update_first (fun u => User.id u =? user_id)
                 (update_fields user_data) (users db))
              (customers db) (partnership_codes db)
              (financial_transactions db),
            update_fields user_data user)
  end.

(** DELETE /api/users/{user_id} *)
Definition delete_user (user_id : Z) (current_user : User.t) (db : Session)
  : result (Session * string) :=
  let user := first (filter (fun u => User.id u =? user_id) (users db)) in
  match user with
  | None => Raise (HTTPException HTTP_404_NOT_FOUND "User not found")
  | Some user =>
      if is_protected (User.email user) then
        Raise (HTTPException HTTP_403_FORBIDDEN
                 "Cannot delete protected user accounts")
      else
        (* Deactivate instead of delete *)
        Ok (mkSession
              (update_first (fun u => User.id u =? user_id)
                 (fun user => User_set_is_active user false) (users db))
              (customers db) (partnership_codes db)
              (financial_transactions db),
            "User deactivated")
  end.


(** ** Listing endpoints *)

(** [query.order_by(col.desc()).all()]: the rows by descending [col]; rows
    of equal [col] are left in storage order. *)
Fixpoint insert_desc {A} (col : A -> datetime.t) (x : A) (rows : list A)
  : list A :=
  match rows with
  | [] => [x]
  | y :: rows' =>
      if datetime.ge (col x) (col y) then x :: rows
      else y :: insert_desc col x rows'
  end.

Definition order_by_desc {A} (col : A -> datetime.t) (rows : list A) : list A :=
  fold_right (insert_desc col) [] rows.

(** GET /api/customers *)
Definition get_customers (current_user : User.t) (db : Session)
  (include_deleted : bool) : list CustomerResponse.t :=
  let query := customers db in
  let query :=
    if negb include_deleted then
      filter (fun c => Bool.eqb (Customer.is_deleted c) false) query
    else query in
  let customers := order_by_desc Customer.created_at query in
  fold_left
    (fun result customer =>
       result ++ [CustomerResponse.mk customer
                    (json.loads_or_empty (Customer.camps customer))
                    (json.loads_or_empty (Customer.prices customer))])
    customers [].

(** GET /api/partnership-codes *)
Definition get_partnership_codes (current_user : User.t) (db : Session)
  : list PartnershipCode.t :=
  order_by_desc PartnershipCode.created_at (partnership_codes db).

(** GET /api/users *)
Definition get_users (current_user : User.t) (db : Session) : list User.t :=
  users db.

(** ** Authentication endpoint *)

(** What POST /api/login answers: the token response, or the status code
    and detail of the HTTPException it raises (401, 403 or 500). *)
Inductive login_response :=
| Token (access_token : string) (token_type : string) (user : User.t)
| LoginError (status_code : Z) (detail : string).

(** POST /api/login.  [verify_password], [create_access_token] and
    [ACCESS_TOKEN_EXPIRE_MINUTES] are api/auth.py's; [None] stands for a
    call that raised, which the handler's [except Exception] turns into
    500. *)
Definition login
  (verify_password : string -> string -> option bool)
  (create_access_token : string -> Z -> option string)
  (ACCESS_TOKEN_EXPIRE_MINUTES : Z)
  (username password : string) (db : Session) : login_response :=
  let user :=
    first (filter (fun u => String.eqb (User.email u) username) (users db)) in
  match user with
  | None => LoginError 401 "Incorrect email or password"
  | Some user =>
      match verify_password password (User.hashed_password user) with
      | None => LoginError 500 "An error occurred during login"
      | Some false => LoginError 401 "Incorrect email or password"
      | Some true =>
          if negb (User.is_active user) then
            LoginError 403 "User account is inactive"
          else
            match create_access_token (User.email user)
                    ACCESS_TOKEN_EXPIRE_MINUTES with
            | None => LoginError 500 "An error occurred during login"
            | Some access_token => Token access_token "bearer" user
            end
      end
  end.

(** GET /api/me *)
Definition get_current_user_info (current_user : User.t) : User.t :=
  current_user.

(** * Predicates and sample data used by the statements *)

(** The partnership code check of [create_customer]: the request carries no
    code (or an empty one), or an active PartnershipCode row spells it. *)
Definition code_accepted (customer : CustomerCreate.t) (db : Session) : bool :=
  negb (truthy (CustomerCreate.partnership_code customer))
  || existsb (fun pc =>
                option_string_eqb (Some (PartnershipCode.code pc))
                  (CustomerCreate.partnership_code customer)
                && PartnershipCode.is_active pc)
       (partnership_codes db).

(** Sample rows and requests. *)

Definition sample_now : datetime.t := datetime.mk 2026 11 4 10 30 0 0.

Definition sample_admin : User.t :=
  User.mk 1 "admin@kampus.com" "x" true true true true true true.

Definition sample_session : Session := mkSession [sample_admin] [] [] [].

Definition sample_enrollment (prices : list Z) (code : option string)
  : CustomerCreate.t :=
  CustomerCreate.mk "Ada" "555" "ada@example.com" "12"
    (map (fun _ => "Math") prices) prices code None "Izmir".

(** [c'] is [c] soft-deleted at [now]: flag set, timestamp stamped, every
    other attribute as before. *)
Definition Customer_soft_deleted (now : datetime.t) (c c' : Customer.t) : Prop :=
  Customer.is_deleted c' = true
  /\ Customer.deleted_at c' = Some now
  /\ Customer.id c' = Customer.id c
  /\ Customer.full_name c' = Customer.full_name c
  /\ Customer.phone c' = Customer.phone c
  /\ Customer.email c' = Customer.email c
  /\ Customer.class_level c' = Customer.class_level c
  /\ Customer.camps c' = Customer.camps c
  /\ Customer.prices c' = Customer.prices c
  /\ Customer.partnership_code c' = Customer.partnership_code c
  /\ Customer.previous_yks_rank c' = Customer.previous_yks_rank c
  /\ Customer.city c' = Customer.city c
  /\ Customer.is_paid c' = Customer.is_paid c
  /\ Customer.created_at c' = Customer.created_at c.

(** [t'] is [t] with its deleted flag set and nothing else changed. *)
Definition Transaction_soft_deleted (t t' : FinancialTransaction.t) : Prop :=
  FinancialTransaction.is_deleted t' = true
  /\ FinancialTransaction.id t' = FinancialTransaction.id t
  /\ FinancialTransaction.customer_id t' = FinancialTransaction.customer_id t
  /\ FinancialTransaction.amount t' = FinancialTransaction.amount t
  /\ FinancialTransaction.transaction_date t'
     = FinancialTransaction.transaction_date t.

(** A FinancialTransaction the cascade of [delete_customer customer_id]
    targets: it references the customer and is not deleted yet. *)
Definition cascade_target (customer_id : Z) (t : FinancialTransaction.t) : bool :=
  (FinancialTransaction.customer_id t =? customer_id)
  && negb (FinancialTransaction.is_deleted t).

(** The Customer a FinancialTransaction belongs to, looked up as the
    handlers do. *)
Definition owner (db : Session) (t : FinancialTransaction.t)
  : option Customer.t :=
  first (filter (fun c => Customer.id c =? FinancialTransaction.customer_id t)
           (customers db)).

(** The soft-delete cascade, as an invariant of the session: a
    FinancialTransaction that is not deleted belongs to a Customer that
    exists and is not deleted. *)
Definition cascade_ok (db : Session) : bool :=
  forallb (fun t =>
             FinancialTransaction.is_deleted t
             || match owner db t with
                | Some c => negb (Customer.is_deleted c)
                | None => false
                end)
    (financial_transactions db).

(** The requests that write to the session. *)
Inductive request :=
| POST_customers (customer : CustomerCreate.t)
| DELETE_customers (customer_id : Z)
| POST_partnership_codes (code_data : PartnershipCodeCreate.t)
| DELETE_partnership_codes (code_id : Z)
| POST_users (user_data : UserCreate.t)
| PUT_users (user_id : Z) (user_data : UserUpdate.t)
| DELETE_users (user_id : Z).

(** The session after a request has been served. *)
Definition handle (get_password_hash : string -> string) (req : request)
  (current_user : User.t) (db : Session) (now : datetime.t) : Session :=
  match req with
  | POST_customers customer =>
      session_after db (create_customer customer current_user db now)
  | DELETE_customers customer_id =>
      session_after db (delete_customer customer_id current_user db now)
  | POST_partnership_codes code_data =>
      session_after db (create_partnership_code code_data current_user db now)
  | DELETE_partnership_codes code_id =>
      session_after db (delete_partnership_code code_id current_user db)
  | POST_users user_data =>
      session_after db (create_user get_password_hash user_data current_user db)
  | PUT_users user_id user_data =>
      session_after db (update_user user_id user_data current_user db)
  | DELETE_users user_id =>
      session_after db (delete_user user_id current_user db)
  end.

(** Sessions the API can bring about, starting with no Customer and no
    FinancialTransaction. *)
Inductive reachable (get_password_hash : string -> string) : Session -> Prop :=
| reachable_init db :
    customers db = [] -> financial_transactions db = [] ->
    reachable get_password_hash db
| reachable_step db req current_user now :
    reachable get_password_hash db ->
    reachable get_password_hash
      (handle get_password_hash req current_user db now).

Definition sample_customer (is_deleted : bool) : Customer.t :=
  Customer.mk 1 "Ada" "555" "ada@example.com" "12" (Some ["Math"; "Math"])
    (Some [50; 70]) None None "Izmir" true is_deleted
    (if is_deleted then Some sample_now else None) sample_now.

Definition sample_transaction (is_deleted : bool) : FinancialTransaction.t :=
  FinancialTransaction.mk 1 1 120 sample_now is_deleted.

(** One paid customer with its transaction; and the same after the
    customer was soft-deleted. *)
Definition sample_paid_session : Session :=
  mkSession [sample_admin] [sample_customer false] []
    [sample_transaction false].

Definition sample_deleted_session : Session :=
  mkSession [sample_admin] [sample_customer true] []
    [sample_transaction true].

Definition sample_later : datetime.t := datetime.mk 2026 11 5 9 0 0 0.

(** The value a flag has after a partial update: the supplied one when the
    caller provided it, the prior one when the field was left out. *)
Definition supplied_or (value : option bool) (prior : bool) : bool :=
  match value with
  | Some v => v
  | None => prior
  end.

Definition sample_protected : User.t :=
  User.mk 2 "gokhan@kampus.com" "y" true true true true true true.

Definition sample_staff : User.t :=
  User.mk 3 "staff@kampus.com" "z" true true true false false false.

Definition sample_users_session : Session :=
  mkSession [sample_admin; sample_protected; sample_staff] [] [] [].

Definition sample_update : UserUpdate.t :=
  UserUpdate.mk None (Some false) None (Some true) None None.

(** A FinancialTransaction the detail list shows: it is not deleted and its
    owning Customer exists and is not deleted. *)
Definition listed (db : Session) (t : FinancialTransaction.t) : bool :=
  negb (FinancialTransaction.is_deleted t)
  && match owner db t with
     | Some c => negb (Customer.is_deleted c)
     | None => false
     end.

(** The detail entry of transaction [t] owned by customer [c]. *)
Definition detail_entry (tc : FinancialTransaction.t * Customer.t)
  : FinancialDetail.t :=
  FinancialDetail.mk (Customer.id (snd tc)) (Customer.full_name (snd tc))
    (FinancialTransaction.amount (fst tc))
    (FinancialTransaction.transaction_date (fst tc)).

(** The amounts of the transactions that are not deleted are not negative. *)
Definition amounts_nonneg (db : Session) : Prop :=
  forall t, In t (financial_transactions db) ->
            FinancialTransaction.is_deleted t = false ->
            0 <= FinancialTransaction.amount t.

(** The transactions of [txs] whose owner exists and is not deleted, each
    paired with that owner. *)
Definition owned_entries (db : Session) (txs : list FinancialTransaction.t)
  : list (FinancialTransaction.t * Customer.t) :=
  flat_map (fun t =>
              match owner db t with
              | Some c => if Customer.is_deleted c then [] else [(t, c)]
              | None => []
              end)
    txs.

(** New Year's Day 2027, a Friday: the week began on Monday 28 December
    2026, before the month and the year did. *)
Definition boundary_now : datetime.t := datetime.mk 2027 1 1 12 0 0 0.

Definition boundary_enrolled : datetime.t := datetime.mk 2026 12 29 10 0 0 0.

Definition boundary_session : Session :=
  mkSession [sample_admin]
    [Customer.mk 1 "Ada" "555" "ada@example.com" "12" (Some ["Math"])
       (Some [100]) None None "Izmir" true false None boundary_enrolled]
    []
    [FinancialTransaction.mk 1 1 100 boundary_enrolled false].

(** The Customers counted for a partnership code: not deleted, and their
    [partnership_code] equals the code's string. *)
Definition referred_by (db : Session) (code : string) : list Customer.t :=
  filter (fun c =>
            match Customer.partnership_code c with
            | Some s => String.eqb s code
            | None => false
            end
            && negb (Customer.is_deleted c))
    (customers db).

(** The sum of a Customer's decoded prices. *)
Definition decoded_total (c : Customer.t) : Z :=
  sum (json.loads_or_empty (Customer.prices c)).

(** The statistics entry of one PartnershipCode row. *)
Definition stats_entry (db : Session) (pc : PartnershipCode.t)
  : PartnershipStats.t :=
  PartnershipStats.mk (PartnershipCode.code pc)
    (Z.of_nat (List.length (referred_by db (PartnershipCode.code pc))))
    (sum (map decoded_total (referred_by db (PartnershipCode.code pc)))).

(** Largest key first. *)
Definition descending {A} (key : A -> Z) (a b : A) : Prop := key b <= key a.

(** The scenario of the specification: code PARTNER10, customer A paying
    100 and customer B paying 0; and a second, deactivated code nobody
    uses. *)
Definition scenario_session : Session :=
  mkSession [sample_admin]
    [Customer.mk 1 "A" "555" "a@example.com" "12" (Some ["Math"])
       (Some [100]) (Some "PARTNER10") None "Izmir" true false None sample_now;
     Customer.mk 2 "B" "556" "b@example.com" "11" (Some ["Sci"])
       (Some [0]) (Some "PARTNER10") None "Izmir" false false None sample_now]
    [PartnershipCode.mk 1 "OLD5" false sample_now;
     PartnershipCode.mk 2 "PARTNER10" true sample_now]
    [FinancialTransaction.mk 1 1 100 sample_now false].

(** A session whose PartnershipCode table has the code OLD5, still active,
    and the code PARTNER10, deactivated. *)
Definition scenario_inactive_session : Session :=
  mkSession [sample_admin] []
    [PartnershipCode.mk 1 "OLD5" true sample_now;
     PartnershipCode.mk 2 "PARTNER10" false sample_now]
    [].

(** Month and day of [d] name a day of the calendar. *)
Definition calendar_day (d : datetime.t) : Prop :=
  1 <= datetime.month d <= 12
  /\ 1 <= datetime.day d
     <= datetime._days_in_month (datetime.year d) (datetime.month d).

(** Turn [datetime.valid d = true] into the bounds on the fields of [d]. *)
Ltac valid_bounds H :=
  unfold datetime.valid in H;
  rewrite !andb_true_iff, ?Z.leb_le, ?Z.ltb_lt in H;
  decompose [and] H; clear H.

(** ** Predicates on sessions and on sequences of requests *)

(** A list that keeps the entries it had and, at most, gains some at the
    end. *)
Definition extends {A} (old new : list A) : Prop :=
  exists more, new = old ++ more.

(** The columns no handler assigns after the row was added: a row with its
    soft-delete or active flag reset. *)
Definition User_fixed (u : User.t) : Z * string * string :=
  (User.id u, User.email u, User.hashed_password u).

Definition Customer_fixed (c : Customer.t) : Customer.t :=
  Customer_set_deleted_at (Customer_set_is_deleted c false) None.

Definition PartnershipCode_fixed (pc : PartnershipCode.t) : PartnershipCode.t :=
  PartnershipCode_set_is_active pc true.

Definition FinancialTransaction_fixed (t : FinancialTransaction.t)
  : FinancialTransaction.t :=
  FinancialTransaction_set_is_deleted t false.

(** No two rows of a table share a primary key. *)
Definition primary_keys_unique (db : Session) : Prop :=
  NoDup (map User.id (users db))
  /\ NoDup (map Customer.id (customers db))
  /\ NoDup (map PartnershipCode.id (partnership_codes db))
  /\ NoDup (map FinancialTransaction.id (financial_transactions db)).

(** Requests served one after the other, each with its acting user and its
    time. *)
Definition handle_all (get_password_hash : string -> string)
  (calls : list (request * User.t * datetime.t)) (db : Session) : Session :=
  fold_left
    (fun db call =>
       match call with
       | (req, current_user, now) =>
           handle get_password_hash req current_user db now
       end)
    calls db.

(** The code string is on file and no row that spells it is active. *)
Definition code_retired (db : Session) (code : string) : Prop :=
  (exists pc, In pc (partnership_codes db) /\ PartnershipCode.code pc = code)
  /\ forall pc, In pc (partnership_codes db) ->
                PartnershipCode.code pc = code ->
                PartnershipCode.is_active pc = false.

(** The books agree: customer ids are unique, a customer is flagged paid
    exactly when its decoded prices sum to more than 0, every transaction
    belongs to one paid customer, carries the sum of that customer's prices
    and shares its deleted flag, and every paid customer has its
    transaction, no two transactions belonging to the same customer. *)
Definition ledger_consistent (db : Session) : Prop :=
  NoDup (map Customer.id (customers db))
  /\ NoDup (map FinancialTransaction.customer_id (financial_transactions db))
  /\ (forall c, In c (customers db) ->
                Customer.is_paid c = (0 <? decoded_total c))
  /\ (forall t, In t (financial_transactions db) ->
        exists c, In c (customers db)
                  /\ Customer.id c = FinancialTransaction.customer_id t
                  /\ FinancialTransaction.amount t = decoded_total c
                  /\ 0 < FinancialTransaction.amount t
                  /\ FinancialTransaction.is_deleted t = Customer.is_deleted c)
  /\ (forall c, In c (customers db) -> Customer.is_paid c = true ->
        exists t, In t (financial_transactions db)
                  /\ FinancialTransaction.customer_id t = Customer.id c).

(** The body of a PUT /api/users request that supplies nothing, and one
    that only clears the active flag. *)
Definition update_nothing : UserUpdate.t :=
  UserUpdate.mk None None None None None None.

Definition update_deactivate : UserUpdate.t :=
  UserUpdate.mk None None None None None (Some false).

(** Sample collaborators of the login handler: the stored hash is the
    password itself, the token is the subject. *)
Definition sample_verify_password (password hashed : string) : option bool :=
  Some (String.eqb password hashed).

Definition sample_create_access_token (sub : string) (minutes : Z)
  : option string :=
  Some sub.

Definition sample_hash (password : string) : string := password.

(** * Properties *)

(** ** Lists, [sum], [first] and the row updates *)

Section ListFacts.
Context {A : Type}.
Implicit Types (p : A -> bool) (f : A -> A) (rows : list A).

Lemma first_filter_None p rows :
  first (filter p rows) = None <-> forall r, In r rows -> p r = false.
Proof.
  induction rows as [|r rows IH]; simpl.
  - split; [intros _ r [] | reflexivity].
  - destruct (p r) eqn:E; simpl.
    + split; [discriminate|].
      intros H. rewrite (H r (or_introl eq_refl)) in E. discriminate.
    + rewrite IH. split.
      * intros H r' [<-|Hin]; auto.
      * intros H r' Hin. apply H. now right.
Qed.

(** The row [.first()] returns is the earliest one that passes the filter. *)
Lemma first_filter_Some p rows r :
  first (filter p rows) = Some r ->
  exists before after,
    rows = before ++ r :: after /\ p r = true /\
    forall r', In r' before -> p r' = false.
Proof.
  induction rows as [|r0 rows IH]; simpl; [discriminate|].
  destruct (p r0) eqn:E; simpl.
  - intros [= <-]. exists [], rows. repeat split; auto. intros r' [].
  - intros H. destruct (IH H) as (before & after & -> & Hp & Hb).
    exists (r0 :: before), after. repeat split; auto.
    intros r' [<-|Hin]; auto.
Qed.

Lemma first_filter_split p rows before r after :
  rows = before ++ r :: after -> p r = true ->
  (forall r', In r' before -> p r' = false) ->
  first (filter p rows) = Some r.
Proof.
  intros -> Hp. induction before as [|r0 before IH]; simpl; intros Hb.
  - now rewrite Hp.
  - rewrite (Hb r0 (or_introl eq_refl)). apply IH.
    intros r' Hin. apply Hb. now right.
Qed.

Lemma update_first_split p f before r after :
  p r = true -> (forall r', In r' before -> p r' = false) ->
  update_first p f (before ++ r :: after) = before ++ f r :: after.
Proof.
  intros Hp. induction before as [|r0 before IH]; simpl; intros Hb.
  - now rewrite Hp.
  - rewrite (Hb r0 (or_introl eq_refl)). f_equal. apply IH.
    intros r' Hin. apply Hb. now right.
Qed.

Lemma update_first_length p f rows :
  List.length (update_first p f rows) = List.length rows.
Proof.
  induction rows as [|r rows IH]; simpl; [reflexivity|].
  destruct (p r); simpl; congruence.
Qed.

Lemma update_all_length p f rows :
  List.length (update_all p f rows) = List.length rows.
Proof. apply length_map. Qed.

Lemma update_all_nth_error p f rows i :
  nth_error (update_all p f rows) i
  = option_map (fun r => if p r then f r else r) (nth_error rows i).
Proof. apply nth_error_map. Qed.

(** Nothing to rewrite: the table is left as it is. *)
Lemma update_all_none p f rows :
  (forall r, In r rows -> p r = false) -> update_all p f rows = rows.
Proof.
  induction rows as [|r rows IH]; simpl; intros H; [reflexivity|].
  rewrite (H r (or_introl eq_refl)). f_equal. apply IH.
  intros r' Hin. apply H. now right.
Qed.
End ListFacts.

Lemma fold_left_add_shift (xs : list Z) (a : Z) :
  fold_left Z.add xs a = a + fold_left Z.add xs 0.
Proof.
  revert a. induction xs as [|x xs IH]; intros a; simpl; [lia|].
  rewrite (IH (a + x)), (IH x). lia.
Qed.

Lemma sum_nil : sum [] = 0.
Proof. reflexivity. Qed.

Lemma sum_cons (x : Z) (xs : list Z) : sum (x :: xs) = x + sum xs.
Proof. unfold sum. simpl. apply fold_left_add_shift. Qed.

Lemma sum_app (xs ys : list Z) : sum (xs ++ ys) = sum xs + sum ys.
Proof.
  induction xs as [|x xs IH]; simpl; [reflexivity|].
  rewrite !sum_cons, IH. lia.
Qed.

Lemma sum_nonneg (xs : list Z) : Forall (fun x => 0 <= x) xs -> 0 <= sum xs.
Proof.
  induction 1 as [|x xs Hx _ IH]; [now rewrite sum_nil|].
  rewrite sum_cons. lia.
Qed.

Lemma truthy_Some (code : string) :
  truthy (Some code) = true <-> code <> EmptyString.
Proof.
  simpl. destruct (String.eqb_spec code EmptyString); simpl; split; congruence.
Qed.

(** ** Enrollment creation *)

Lemma eqb_true_r (b : bool) : Bool.eqb b true = b.
Proof. now destruct b. Qed.

Lemma eqb_false_r (b : bool) : Bool.eqb b false = negb b.
Proof. now destruct b. Qed.

Lemma first_filter_existsb {A} (p : A -> bool) (rows : list A) :
  existsb p rows = match first (filter p rows) with Some _ => true | None => false end.
Proof.
  induction rows as [|r rows IH]; simpl; [reflexivity|].
  destruct (p r); simpl; auto.
Qed.

(** What a successful call does to the session, and when a call succeeds. *)
Lemma create_customer_run customer current_user db now :
  create_customer customer current_user db now =
  if code_accepted customer db then
    let total_price := sum (CustomerCreate.prices customer) in
    let db_customer :=
      Customer_new (next_id (map Customer.id (customers db)))
        (CustomerCreate.full_name customer) (CustomerCreate.phone customer)
        (CustomerCreate.email customer) (CustomerCreate.class_level customer)
        (json.dumps (CustomerCreate.camps customer))
        (json.dumps (CustomerCreate.prices customer))
        (CustomerCreate.partnership_code customer)
        (CustomerCreate.previous_yks_rank customer)
        (CustomerCreate.city customer) (0 <? total_price) now in
    Ok (mkSession (users db) (customers db ++ [db_customer])
          (partnership_codes db)
          (financial_transactions db ++
             if 0 <? total_price then
               [FinancialTransaction_new
                  (next_id (map FinancialTransaction.id
                              (financial_transactions db)))
                  (Customer.id db_customer) total_price now]
             else []),
        CustomerResponse.mk db_customer (CustomerCreate.camps customer)
          (CustomerCreate.prices customer))
  else Raise (HTTPException HTTP_400_BAD_REQUEST
                "Invalid or inactive partnership code").
Proof.
  unfold create_customer, code_accepted.
  destruct (truthy (CustomerCreate.partnership_code customer)); simpl.
  - rewrite first_filter_existsb.
    erewrite filter_ext
      by (intros pc; rewrite eqb_true_r; reflexivity).
    destruct (first (filter _ (partnership_codes db))); simpl; [|reflexivity].
    destruct (0 <? sum (CustomerCreate.prices customer)); simpl;
      unfold add_transaction, add_customer; simpl;
      rewrite ?app_nil_r; reflexivity.
  - destruct (0 <? sum (CustomerCreate.prices customer)); simpl;
      unfold add_transaction, add_customer; simpl;
      rewrite ?app_nil_r; reflexivity.
Qed.

Lemma create_customer_succeeds_iff customer current_user db now :
  (exists r, create_customer customer current_user db now = Ok r)
  <-> code_accepted customer db = true.
Proof.
  rewrite create_customer_run.
  destruct (code_accepted customer db); split; try reflexivity.
  - intros _. eexists. reflexivity.
  - intros [r Hr]. discriminate.
  - discriminate.
Qed.

(** C1.  An enrollment request that passes the partnership code check is
    persisted as one new Customer whose [is_paid] is [sum(prices) > 0]; when
    the sum is strictly positive exactly one FinancialTransaction is added,
    of that amount and owned by the new Customer; when the sum is not
    positive (in particular when it is 0) the FinancialTransaction table is
    untouched. *)
Theorem create_customer_paid_flag_and_transaction
  customer current_user db now :
  code_accepted customer db = true ->
  let total := sum (CustomerCreate.prices customer) in
  exists db' resp c,
    create_customer customer current_user db now = Ok (db', resp)
    /\ customers db' = customers db ++ [c]
    /\ Customer.is_paid c = (0 <? total)
    /\ (0 < total ->
        exists t,
          financial_transactions db' = financial_transactions db ++ [t]
          /\ FinancialTransaction.amount t = total
          /\ FinancialTransaction.customer_id t = Customer.id c
          /\ FinancialTransaction.transaction_date t = now
          /\ FinancialTransaction.is_deleted t = false)
    /\ (total <= 0 ->
        financial_transactions db' = financial_transactions db).
Proof.
  intros Hacc total. rewrite create_customer_run, Hacc. cbv zeta.
  fold total. do 3 eexists. split; [reflexivity|]. simpl.
  split; [reflexivity|]. split; [reflexivity|]. split.
  - intros Hpos. apply Z.ltb_lt in Hpos. rewrite Hpos.
    eexists. split; [reflexivity|]. simpl. auto.
  - intros Hle. apply Z.ltb_ge in Hle. rewrite Hle. apply app_nil_r.
Qed.

Lemma create_customer_paid_flag_and_transaction_witness :
  code_accepted (sample_enrollment [50; 70] None) sample_session = true
  /\ exists db' resp c,
       create_customer (sample_enrollment [50; 70] None) sample_admin
         sample_session sample_now = Ok (db', resp)
       /\ customers db' = customers sample_session ++ [c]
       /\ Customer.is_paid c = (0 <? 120)
       /\ (0 < 120 ->
           exists t,
             financial_transactions db'
             = financial_transactions sample_session ++ [t]
             /\ FinancialTransaction.amount t = 120
             /\ FinancialTransaction.customer_id t = Customer.id c
             /\ FinancialTransaction.transaction_date t = sample_now
             /\ FinancialTransaction.is_deleted t = false)
       /\ (120 <= 0 ->
           financial_transactions db' = financial_transactions sample_session).
Proof.
  split; [reflexivity|].
  apply (create_customer_paid_flag_and_transaction
           (sample_enrollment [50; 70] None) sample_admin sample_session
           sample_now).
  reflexivity.
Defined.

(** C7.  A request that supplies a partnership code (a value the handler's
    [if customer.partnership_code:] takes as provided) which no active
    PartnershipCode row spells is refused with 400 (InvalidReference), and
    the session is left as it was: no Customer and no FinancialTransaction
    is created. *)
Theorem create_customer_rejects_invalid_code
  customer current_user db now :
  truthy (CustomerCreate.partnership_code customer) = true ->
  (forall pc, In pc (partnership_codes db) ->
              Some (PartnershipCode.code pc)
              = CustomerCreate.partnership_code customer ->
              PartnershipCode.is_active pc = false) ->
  create_customer customer current_user db now
  = Raise (HTTPException HTTP_400_BAD_REQUEST
             "Invalid or inactive partnership code")
  /\ session_after db (create_customer customer current_user db now) = db.
Proof.
  intros Hsupplied Hnone.
  assert (Hacc : code_accepted customer db = false).
  { unfold code_accepted. rewrite Hsupplied. simpl.
    apply not_true_is_false. intros Hex.
    apply existsb_exists in Hex. destruct Hex as (pc & Hin & Hpc).
    apply andb_prop in Hpc. destruct Hpc as [Heq Hact].
    destruct (CustomerCreate.partnership_code customer) as [code|] eqn:Hcode;
      [|discriminate].
    apply String.eqb_eq in Heq. rewrite (Hnone pc Hin) in Hact by congruence.
    discriminate. }
  rewrite create_customer_run, Hacc. split; reflexivity.
Qed.

Lemma create_customer_rejects_invalid_code_witness :
  create_customer (sample_enrollment [100] (Some "PARTNER10")) sample_admin
    scenario_inactive_session sample_now
  = Raise (HTTPException HTTP_400_BAD_REQUEST
             "Invalid or inactive partnership code")
  /\ session_after scenario_inactive_session
       (create_customer (sample_enrollment [100] (Some "PARTNER10"))
          sample_admin scenario_inactive_session sample_now)
     = scenario_inactive_session.
Proof.
  apply (create_customer_rejects_invalid_code
           (sample_enrollment [100] (Some "PARTNER10")) sample_admin
           scenario_inactive_session sample_now).
  - reflexivity.
  - simpl. intros pc [<-|[<-|[]]] Hcode; [discriminate|reflexivity].
Defined.

(** C9.  A request whose partnership code is the empty string is not
    checked against the PartnershipCode table at all: whatever that table
    holds (in particular when no row has an empty code) the request
    succeeds and the new Customer carries the empty string as its code. *)
Theorem create_customer_empty_code_not_validated
  customer current_user db now :
  CustomerCreate.partnership_code customer = Some EmptyString ->
  exists db' resp c,
    create_customer customer current_user db now = Ok (db', resp)
    /\ customers db' = customers db ++ [c]
    /\ Customer.partnership_code c = Some EmptyString.
Proof.
  intros Hcode. rewrite create_customer_run.
  unfold code_accepted. rewrite Hcode. simpl.
  do 3 eexists. split; [reflexivity|]. simpl. split; reflexivity.
Qed.

Lemma create_customer_empty_code_not_validated_witness :
  existsb (fun pc => String.eqb (PartnershipCode.code pc) EmptyString)
    (partnership_codes sample_session) = false
  /\ exists db' resp c,
       create_customer (sample_enrollment [0] (Some EmptyString)) sample_admin
         sample_session sample_now = Ok (db', resp)
       /\ customers db' = customers sample_session ++ [c]
       /\ Customer.partnership_code c = Some EmptyString.
Proof.
  split; [reflexivity|].
  apply (create_customer_empty_code_not_validated
           (sample_enrollment [0] (Some EmptyString)) sample_admin sample_session
           sample_now).
  reflexivity.
Defined.

(** ** Customer soft-deletion *)

Lemma delete_customer_run customer_id current_user db now :
  delete_customer customer_id current_user db now =
  match first (filter (fun c => Customer.id c =? customer_id) (customers db)) with
  | None => Raise (HTTPException HTTP_404_NOT_FOUND "Customer not found")
  | Some _ =>
      Ok (mkSession (users db)
            (update_first (fun c => Customer.id c =? customer_id)
               (fun c => Customer_set_deleted_at
                           (Customer_set_is_deleted c true) (Some now))
               (customers db))
            (partnership_codes db)
            (update_all (cascade_target customer_id)
               (fun t => FinancialTransaction_set_is_deleted t true)
               (financial_transactions db)),
          "Customer marked as deleted (payment not received)")
  end.
Proof.
  unfold delete_customer, cascade_target.
  destruct (first _); reflexivity.
Qed.

Lemma Customer_soft_deleted_set now c :
  Customer_soft_deleted now c
    (Customer_set_deleted_at (Customer_set_is_deleted c true) (Some now)).
Proof. repeat split. Qed.

Lemma Transaction_soft_deleted_set t :
  Transaction_soft_deleted t (FinancialTransaction_set_is_deleted t true).
Proof. repeat split. Qed.

(** C3.  [delete_customer] with an id no Customer has raises 404 (NotFound)
    and changes nothing.  With an id some Customer has, it succeeds: the
    Customer of that id gets its deleted flag and deletion timestamp, every
    other Customer row is as before; each FinancialTransaction that
    references the id and was not deleted gets its deleted flag, each other
    FinancialTransaction is as before; users and partnership codes are as
    before. *)
Theorem delete_customer_soft_deletes_and_cascades
  customer_id current_user db now :
  ((forall c, In c (customers db) -> Customer.id c <> customer_id) ->
   delete_customer customer_id current_user db now
   = Raise (HTTPException HTTP_404_NOT_FOUND "Customer not found")
   /\ session_after db (delete_customer customer_id current_user db now) = db)
  /\
  ((exists c, In c (customers db) /\ Customer.id c = customer_id) ->
   exists db' msg before c c' after,
     delete_customer customer_id current_user db now = Ok (db', msg)
     /\ customers db = before ++ c :: after
     /\ Customer.id c = customer_id
     /\ (forall c0, In c0 before -> Customer.id c0 <> customer_id)
     /\ customers db' = before ++ c' :: after
     /\ Customer_soft_deleted now c c'
     /\ List.length (financial_transactions db')
        = List.length (financial_transactions db)
     /\ (forall i t,
            nth_error (financial_transactions db) i = Some t ->
            exists t',
              nth_error (financial_transactions db') i = Some t'
              /\ (cascade_target customer_id t = true ->
                  Transaction_soft_deleted t t')
              /\ (cascade_target customer_id t = false -> t' = t))
     /\ users db' = users db
     /\ partnership_codes db' = partnership_codes db).
Proof.
  rewrite delete_customer_run. split.
  - intros Hnone.
    assert (H : first (filter (fun c => Customer.id c =? customer_id)
                         (customers db)) = None).
    { apply first_filter_None. intros c Hin. apply Z.eqb_neq. auto. }
    rewrite H. split; reflexivity.
  - intros (c0 & Hin0 & Hid0).
    destruct (first (filter (fun c => Customer.id c =? customer_id)
                       (customers db))) as [c|] eqn:Hfirst.
    + destruct (first_filter_Some _ _ _ Hfirst)
        as (before & after & Hrows & Hid & Hbefore).
      apply Z.eqb_eq in Hid.
      exists (mkSession (users db)
                (update_first (fun c => Customer.id c =? customer_id)
                   (fun c => Customer_set_deleted_at
                               (Customer_set_is_deleted c true) (Some now))
                   (customers db))
                (partnership_codes db)
                (update_all (cascade_target customer_id)
                   (fun t => FinancialTransaction_set_is_deleted t true)
                   (financial_transactions db))).
      eexists. exists before, c. eexists. exists after.
      split; [reflexivity|]. split; [exact Hrows|]. split; [exact Hid|].
      split; [intros c1 Hc1; apply Z.eqb_neq; auto|]. simpl.
      split.
      { rewrite Hrows. apply update_first_split; auto.
        now apply Z.eqb_eq. }
      split; [apply Customer_soft_deleted_set|].
      split; [apply update_all_length|].
      split; [|split; reflexivity].
      intros i t Hi. rewrite update_all_nth_error, Hi. simpl.
      eexists. split; [reflexivity|].
      destruct (cascade_target customer_id t); split; intros; try discriminate.
      * apply Transaction_soft_deleted_set.
      * reflexivity.
    + exfalso. rewrite first_filter_None in Hfirst.
      specialize (Hfirst c0 Hin0). apply Z.eqb_neq in Hfirst. auto.
Qed.

Lemma delete_customer_soft_deletes_and_cascades_witness :
  (exists c, In c (customers sample_paid_session) /\ Customer.id c = 1)
  /\ exists db' msg,
       delete_customer 1 sample_admin sample_paid_session sample_later
       = Ok (db', msg)
       /\ customers db'
          = [Customer_set_deleted_at
               (Customer_set_is_deleted (sample_customer false) true)
               (Some sample_later)]
       /\ financial_transactions db' = [sample_transaction true].
Proof.
  assert (Hex : exists c, In c (customers sample_paid_session)
                          /\ Customer.id c = 1).
  { exists (sample_customer false). split; [left|]; reflexivity. }
  split; [exact Hex|].
  destruct (proj2 (delete_customer_soft_deletes_and_cascades
                     1 sample_admin sample_paid_session sample_later) Hex)
    as (db' & msg & _ & _ & _ & _ & Hrun & _).
  exists db', msg. split; [exact Hrun|].
  vm_compute in Hrun. injection Hrun as <- _. split; reflexivity.
Defined.

(** *** The cascade as an invariant *)

Lemma next_id_fresh (ids : list Z) (x : Z) : In x ids -> x < next_id ids.
Proof.
  unfold next_id. induction ids as [|y ids IH]; simpl; [intros []|].
  intros [->|Hin]; [lia|]. specialize (IH Hin). lia.
Qed.

Lemma filter_none {A} (p : A -> bool) (rows : list A) :
  (forall r, In r rows -> p r = false) -> filter p rows = [].
Proof.
  induction rows as [|r rows IH]; simpl; intros H; [reflexivity|].
  rewrite (H r (or_introl eq_refl)). apply IH. intros r' Hin. apply H. now right.
Qed.

Lemma first_filter_app_Some {A} (p : A -> bool) (rows more : list A) (r : A) :
  first (filter p rows) = Some r -> first (filter p (rows ++ more)) = Some r.
Proof.
  rewrite filter_app. destruct (filter p rows); simpl; [discriminate|auto].
Qed.

(** Rewriting the row of key [j] does not change which row a lookup by
    another key finds. *)
Lemma first_filter_update_first_other (j k : Z) (f : Customer.t -> Customer.t)
  (rows : list Customer.t) :
  k <> j -> (forall c, Customer.id (f c) = Customer.id c) ->
  first (filter (fun c => Customer.id c =? k)
           (update_first (fun c => Customer.id c =? j) f rows))
  = first (filter (fun c => Customer.id c =? k) rows).
Proof.
  intros Hkj Hf. induction rows as [|c rows IH]; simpl; [reflexivity|].
  destruct (Customer.id c =? j) eqn:Ej; simpl.
  - rewrite Hf. apply Z.eqb_eq in Ej.
    assert ((Customer.id c =? k) = false) as -> by (apply Z.eqb_neq; lia).
    reflexivity.
  - destruct (Customer.id c =? k); simpl; auto.
Qed.

Lemma cascade_ok_create_customer customer current_user db now :
  cascade_ok db = true ->
  cascade_ok (session_after db (create_customer customer current_user db now))
  = true.
Proof.
  intros Hinv. rewrite create_customer_run.
  destruct (code_accepted customer db); [|exact Hinv].
  cbv zeta. unfold session_after, cascade_ok, owner in *. simpl.
  rewrite forallb_app. apply andb_true_intro. split.
  - rewrite forallb_forall in *. intros t Hin. specialize (Hinv t Hin).
    destruct (FinancialTransaction.is_deleted t); [reflexivity|]. simpl in *.
    destruct (first (filter _ (customers db))) as [c|] eqn:Hown;
      [|discriminate].
    now rewrite (first_filter_app_Some _ _ _ _ Hown).
  - destruct (0 <? sum (CustomerCreate.prices customer)); [|reflexivity].
    simpl. rewrite filter_app.
    assert (Hnone : filter
                      (fun c => Customer.id c
                                =? next_id (map Customer.id (customers db)))
                      (customers db) = []).
    { apply filter_none. intros c Hin. apply Z.eqb_neq.
      pose proof (next_id_fresh _ _ (in_map Customer.id _ _ Hin)). lia. }
    rewrite Hnone. simpl. rewrite Z.eqb_refl. reflexivity.
Qed.

Lemma cascade_ok_delete_customer customer_id current_user db now :
  cascade_ok db = true ->
  cascade_ok (session_after db (delete_customer customer_id current_user db now))
  = true.
Proof.
  intros Hinv. rewrite delete_customer_run.
  destruct (first _) as [found|]; [|exact Hinv].
  unfold session_after, cascade_ok, owner, update_all in *. simpl.
  rewrite forallb_forall in *. intros tx' Hin'.
  apply in_map_iff in Hin'. destruct Hin' as (tx & <- & Hin).
  specialize (Hinv tx Hin). unfold cascade_target.
  destruct (FinancialTransaction.is_deleted tx) eqn:Edel; simpl.
  - rewrite andb_false_r. now rewrite Edel.
  - rewrite andb_true_r.
    destruct (FinancialTransaction.customer_id tx =? customer_id) eqn:Eid;
      [reflexivity|].
    rewrite Edel. simpl. apply Z.eqb_neq in Eid.
    rewrite first_filter_update_first_other; auto.
Qed.

Lemma handle_keeps_ledger hash req current_user db now :
  match req with
  | POST_customers _ | DELETE_customers _ => True
  | _ => customers (handle hash req current_user db now) = customers db
         /\ financial_transactions (handle hash req current_user db now)
            = financial_transactions db
  end.
Proof.
  destruct req; simpl; auto.
  - unfold create_partnership_code. destruct (first _); simpl; auto.
  - unfold delete_partnership_code. destruct (first _); simpl; auto.
  - unfold create_user. destruct (first _); simpl; auto.
  - unfold update_user. destruct (first _) as [u|]; simpl; auto.
    destruct (is_protected _); simpl; auto.
  - unfold delete_user. destruct (first _) as [u|]; simpl; auto.
    destruct (is_protected _); simpl; auto.
Qed.

Lemma cascade_ok_ledger db db' :
  customers db' = customers db ->
  financial_transactions db' = financial_transactions db ->
  cascade_ok db' = cascade_ok db.
Proof.
  intros Hc Ht. unfold cascade_ok, owner. now rewrite Hc, Ht.
Qed.

(** Every session the API can bring about satisfies the cascade invariant. *)
Lemma reachable_cascade_ok hash db : reachable hash db -> cascade_ok db = true.
Proof.
  induction 1 as [db Hc Ht|db req current_user now _ IH].
  - unfold cascade_ok. now rewrite Ht.
  - pose proof (handle_keeps_ledger hash req current_user db now) as Hk.
    destruct req;
      [ now apply cascade_ok_create_customer
      | now apply cascade_ok_delete_customer
      | .. ];
      (destruct Hk as [Hc Ht]; rewrite (cascade_ok_ledger _ _ Hc Ht);
       exact IH).
Qed.

(** C10.  Soft-deleting a Customer that is already soft-deleted succeeds
    again: the Customer stays deleted, its deletion timestamp becomes the
    new time, and no FinancialTransaction changes, because in a session
    where the cascade has been kept no transaction of that customer is left
    non-deleted. *)
Theorem delete_customer_already_deleted
  customer_id current_user db now c :
  first (filter (fun c => Customer.id c =? customer_id) (customers db))
  = Some c ->
  Customer.is_deleted c = true ->
  cascade_ok db = true ->
  exists db' msg c',
    delete_customer customer_id current_user db now = Ok (db', msg)
    /\ first (filter (fun c => Customer.id c =? customer_id) (customers db'))
       = Some c'
    /\ Customer_soft_deleted now c c'
    /\ financial_transactions db' = financial_transactions db.
Proof.
  intros Hfirst Hdel Hinv. rewrite delete_customer_run, Hfirst.
  destruct (first_filter_Some _ _ _ Hfirst)
    as (before & after & Hrows & Hid & Hbefore).
  do 3 eexists. split; [reflexivity|]. simpl. split; [|split].
  - rewrite Hrows, update_first_split by assumption.
    eapply first_filter_split; [reflexivity| |exact Hbefore].
    simpl. exact Hid.
  - apply Customer_soft_deleted_set.
  - apply update_all_none. intros tx Hin.
    unfold cascade_ok in Hinv. rewrite forallb_forall in Hinv.
    specialize (Hinv tx Hin). unfold cascade_target, owner in *.
    destruct (FinancialTransaction.customer_id tx =? customer_id) eqn:Eid;
      [|reflexivity].
    apply Z.eqb_eq in Eid. rewrite Eid, Hfirst, Hdel in Hinv. simpl in *.
    now rewrite orb_false_r in Hinv; rewrite Hinv.
Qed.

Lemma delete_customer_already_deleted_witness :
  exists db' msg c',
    delete_customer 1 sample_admin sample_deleted_session sample_later
    = Ok (db', msg)
    /\ first (filter (fun c => Customer.id c =? 1) (customers db')) = Some c'
    /\ Customer_soft_deleted sample_later (sample_customer true) c'
    /\ financial_transactions db'
       = financial_transactions sample_deleted_session.
Proof.
  apply (delete_customer_already_deleted 1 sample_admin
           sample_deleted_session sample_later (sample_customer true));
    reflexivity.
Defined.

Example sample_deleted_session_reachable hash :
  reachable hash sample_deleted_session.
Proof.
  change sample_deleted_session with
    (handle hash (DELETE_customers 1) sample_admin
       (handle hash (POST_customers (sample_enrollment [50; 70] None))
          sample_admin sample_session sample_now)
       sample_now).
  do 2 apply reachable_step. apply reachable_init; reflexivity.
Qed.

(** ** User management *)

Lemma is_protected_In (email : string) :
  is_protected email = true <-> In email protected_emails.
Proof.
  unfold is_protected. rewrite existsb_exists. split.
  - intros (e & Hin & Heq). apply String.eqb_eq in Heq. now subst.
  - intros Hin. exists email. split; [exact Hin|apply String.eqb_refl].
Qed.

(** C5.  When the user a request addresses has one of the two protected
    emails, [update_user] and [delete_user] both raise 403 (Forbidden),
    whatever the body of the update and whoever the caller is, and the
    session (hence the user's row) is left as it was. *)
Theorem protected_user_update_and_delete_forbidden
  user_id user_data current_user db user :
  first (filter (fun u => User.id u =? user_id) (users db)) = Some user ->
  In (User.email user) protected_emails ->
  update_user user_id user_data current_user db
  = Raise (HTTPException HTTP_403_FORBIDDEN
             "Cannot modify protected user accounts")
  /\ session_after db (update_user user_id user_data current_user db) = db
  /\ delete_user user_id current_user db
     = Raise (HTTPException HTTP_403_FORBIDDEN
                "Cannot delete protected user accounts")
  /\ session_after db (delete_user user_id current_user db) = db.
Proof.
  intros Hfirst Hprot. apply is_protected_In in Hprot.
  unfold update_user, delete_user. rewrite Hfirst, Hprot.
  repeat split.
Qed.

Lemma protected_user_update_and_delete_forbidden_witness :
  update_user 2 sample_update sample_staff sample_users_session
  = Raise (HTTPException HTTP_403_FORBIDDEN
             "Cannot modify protected user accounts")
  /\ session_after sample_users_session
       (update_user 2 sample_update sample_staff sample_users_session)
     = sample_users_session
  /\ delete_user 2 sample_staff sample_users_session
     = Raise (HTTPException HTTP_403_FORBIDDEN
                "Cannot delete protected user accounts")
  /\ session_after sample_users_session
       (delete_user 2 sample_staff sample_users_session)
     = sample_users_session.
Proof.
  apply (protected_user_update_and_delete_forbidden 2 sample_update
           sample_staff sample_users_session sample_protected).
  - reflexivity.
  - simpl. left. reflexivity.
Defined.

(** The six flags and the frame of [update_fields]. *)
Lemma update_fields_spec user_data user :
  let user' := update_fields user_data user in
  User.can_manage_customers user'
  = supplied_or (UserUpdate.can_manage_customers user_data)
      (User.can_manage_customers user)
  /\ User.can_view_financials user'
     = supplied_or (UserUpdate.can_view_financials user_data)
         (User.can_view_financials user)
  /\ User.can_manage_partnership_codes user'
     = supplied_or (UserUpdate.can_manage_partnership_codes user_data)
         (User.can_manage_partnership_codes user)
  /\ User.can_view_partnership_stats user'
     = supplied_or (UserUpdate.can_view_partnership_stats user_data)
         (User.can_view_partnership_stats user)
  /\ User.can_manage_access user'
     = supplied_or (UserUpdate.can_manage_access user_data)
         (User.can_manage_access user)
  /\ User.is_active user'
     = supplied_or (UserUpdate.is_active user_data) (User.is_active user)
  /\ User.id user' = User.id user
  /\ User.email user' = User.email user
  /\ User.hashed_password user' = User.hashed_password user.
Proof.
  destruct user_data as [a b c d e f]. unfold update_fields. simpl.
  destruct a, b, c, d, e, f; simpl; repeat split.
Qed.

(** C6.  An update of an existing, non-protected user succeeds and rewrites
    that user's row only: each of the five permission flags and the active
    flag takes the supplied value when the request provides one (true or
    false) and keeps its prior value when the field is left out; id, email
    and hashed secret are as before, and so is every other row of every
    table. *)
Theorem update_user_partial_update
  user_id user_data current_user db user :
  first (filter (fun u => User.id u =? user_id) (users db)) = Some user ->
  is_protected (User.email user) = false ->
  exists db' user' before after,
    update_user user_id user_data current_user db = Ok (db', user')
    /\ users db = before ++ user :: after
    /\ (forall u, In u before -> User.id u <> user_id)
    /\ users db' = before ++ user' :: after
    /\ User.can_manage_customers user'
       = supplied_or (UserUpdate.can_manage_customers user_data)
           (User.can_manage_customers user)
    /\ User.can_view_financials user'
       = supplied_or (UserUpdate.can_view_financials user_data)
           (User.can_view_financials user)
    /\ User.can_manage_partnership_codes user'
       = supplied_or (UserUpdate.can_manage_partnership_codes user_data)
           (User.can_manage_partnership_codes user)
    /\ User.can_view_partnership_stats user'
       = supplied_or (UserUpdate.can_view_partnership_stats user_data)
           (User.can_view_partnership_stats user)
    /\ User.can_manage_access user'
       = supplied_or (UserUpdate.can_manage_access user_data)
           (User.can_manage_access user)
    /\ User.is_active user'
       = supplied_or (UserUpdate.is_active user_data) (User.is_active user)
    /\ User.id user' = User.id user
    /\ User.email user' = User.email user
    /\ User.hashed_password user' = User.hashed_password user
    /\ customers db' = customers db
    /\ partnership_codes db' = partnership_codes db
    /\ financial_transactions db' = financial_transactions db.
Proof.
  intros Hfirst Hprot. unfold update_user. rewrite Hfirst, Hprot.
  destruct (first_filter_Some _ _ _ Hfirst)
    as (before & after & Hrows & Hid & Hbefore).
  pose proof (update_fields_spec user_data user) as Hspec. cbv zeta in Hspec.
  exists (mkSession
            (update_first (fun u => User.id u =? user_id)
               (update_fields user_data) (users db))
            (customers db) (partnership_codes db)
            (financial_transactions db)),
    (update_fields user_data user), before, after.
  split; [reflexivity|]. split; [exact Hrows|].
  split; [intros u Hu; apply Z.eqb_neq; auto|]. simpl.
  split; [rewrite Hrows; now apply update_first_split|].
  decompose [and] Hspec. repeat split; assumption.
Qed.

Lemma update_user_partial_update_witness :
  exists db' user',
    update_user 3 sample_update sample_admin sample_users_session
    = Ok (db', user')
    /\ users db' = [sample_admin; sample_protected; user']
    /\ user' = User.mk 3 "staff@kampus.com" "z" true true false false true
                 false.
Proof.
  destruct (update_user_partial_update 3 sample_update sample_admin
              sample_users_session sample_staff
              eq_refl eq_refl)
    as (db' & user' & _ & _ & Hrun & _).
  exists db', user'. split; [exact Hrun|].
  vm_compute in Hrun. injection Hrun as <- <-. split; reflexivity.
Defined.

(** ** datetime: order, windows and the start of the week *)

Lemma datetime_cmp_refl (x : list Z) : datetime._cmp x x = Eq.
Proof.
  induction x as [|a x IH]; simpl; [reflexivity|].
  now rewrite Z.compare_refl.
Qed.

Lemma datetime_cmp_trans (x y z : list Z) :
  datetime._cmp x y <> Lt -> datetime._cmp y z <> Lt ->
  datetime._cmp x z <> Lt.
Proof.
  revert y z. induction x as [|a x IH]; intros [|b y] [|c z]; simpl;
    try congruence.
  destruct (Z.compare_spec a b), (Z.compare_spec b c), (Z.compare_spec a c);
    try congruence; try lia; subst; eauto.
Qed.

Lemma datetime_ge_refl (a : datetime.t) : datetime.ge a a = true.
Proof. unfold datetime.ge. now rewrite datetime_cmp_refl. Qed.

Lemma datetime_ge_iff (a b : datetime.t) :
  datetime.ge a b = true
  <-> datetime._cmp (datetime._getstate a) (datetime._getstate b) <> Lt.
Proof.
  unfold datetime.ge. destruct (datetime._cmp _ _); split; congruence.
Qed.

Lemma datetime_ge_trans (a b c : datetime.t) :
  datetime.ge a b = true -> datetime.ge b c = true -> datetime.ge a c = true.
Proof. rewrite !datetime_ge_iff. apply datetime_cmp_trans. Qed.

Lemma datetime_ge_prev_day (d : datetime.t) :
  datetime.ge d (datetime.prev_day d) = true.
Proof.
  apply datetime_ge_iff. unfold datetime.prev_day.
  destruct (1 <? datetime.day d) eqn:Ed; [|destruct (1 <? datetime.month d) eqn:Em];
    simpl; rewrite ?Z.compare_refl.
  - apply Z.ltb_lt in Ed.
    destruct (Z.compare_spec (datetime.day d) (datetime.day d - 1));
      try congruence; lia.
  - apply Z.ltb_lt in Em.
    destruct (Z.compare_spec (datetime.month d) (datetime.month d - 1));
      try congruence; lia.
  - destruct (Z.compare_spec (datetime.year d) (datetime.year d - 1));
      try congruence; lia.
Qed.

Lemma datetime_ge_iter_prev_day (n : nat) (d : datetime.t) :
  datetime.ge d (Nat.iter n datetime.prev_day d) = true.
Proof.
  induction n as [|n IH]; simpl; [apply datetime_ge_refl|].
  eapply datetime_ge_trans; [exact IH|apply datetime_ge_prev_day].
Qed.

(** The date computed by [sub_days] is never later than the date given. *)
Lemma datetime_sub_days_le (d r : datetime.t) (n : Z) :
  datetime.sub_days d n = Ok r -> datetime.ge d r = true.
Proof.
  unfold datetime.sub_days.
  destruct (_ <? _); [discriminate|]. intros [= <-].
  apply datetime_ge_iter_prev_day.
Qed.

Lemma datetime_weekday_range (d : datetime.t) : 0 <= datetime.weekday d < 7.
Proof. unfold datetime.weekday. apply Z.mod_pos_bound. lia. Qed.

(** Going back at most six days leaves the year, if at all, for the last
    week of the year before. *)
Lemma datetime_iter_prev_day_year (n : nat) (d : datetime.t) :
  (n <= 6)%nat ->
  let r := Nat.iter n datetime.prev_day d in
  datetime.year r = datetime.year d
  \/ (datetime.year r = datetime.year d - 1
      /\ 32 - Z.of_nat n <= datetime.day r).
Proof.
  induction n as [|n IH]; intros Hn; [now left|].
  assert (Hn' : (n <= 6)%nat) by lia.
  specialize (IH Hn'). cbv zeta in *.
  change (Nat.iter (S n) datetime.prev_day d)
    with (datetime.prev_day (Nat.iter n datetime.prev_day d)).
  remember (Nat.iter n datetime.prev_day d) as r eqn:Er. clear Er.
  rewrite Nat2Z.inj_succ. unfold datetime.prev_day.
  destruct (1 <? datetime.day r) eqn:Ed;
    [|destruct (1 <? datetime.month r) eqn:Em];
    cbn [datetime.year datetime.day];
    try apply Z.ltb_ge in Ed; lia.
Qed.

(** After year 1 the start of the week always exists. *)
Lemma datetime_week_start_exists (now : datetime.t) :
  datetime.MINYEAR < datetime.year now ->
  exists week_start,
    datetime.sub_days (datetime.replace_midnight now) (datetime.weekday now)
    = Ok week_start.
Proof.
  intros Hy. unfold datetime.sub_days.
  pose proof (datetime_weekday_range now) as Hw.
  pose proof (datetime_iter_prev_day_year
                (Z.to_nat (datetime.weekday now))
                (datetime.replace_midnight now)) as Hr.
  cbv zeta in Hr. simpl in Hr. unfold datetime.MINYEAR in *.
  destruct (_ <? 1) eqn:E; [|eauto].
  apply Z.ltb_lt in E. destruct Hr as [Hr|[Hr _]]; lia.
Qed.

Lemma datetime_month_start_le_today (now : datetime.t) :
  datetime.valid now = true ->
  datetime.ge (datetime.replace_midnight now)
    (datetime.replace_day1_midnight now) = true.
Proof.
  intros Hv. valid_bounds Hv.
  apply datetime_ge_iff. simpl. rewrite !Z.compare_refl.
  destruct (Z.compare_spec (datetime.day now) 1); try congruence; lia.
Qed.

Lemma datetime_year_start_le_month (now : datetime.t) :
  datetime.valid now = true ->
  datetime.ge (datetime.replace_day1_midnight now)
    (datetime.replace_jan1_midnight now) = true.
Proof.
  intros Hv. valid_bounds Hv.
  apply datetime_ge_iff. simpl. rewrite !Z.compare_refl.
  destruct (Z.compare_spec (datetime.month now) 1); try congruence; lia.
Qed.

(** [prev_day] against the proleptic Gregorian ordinal: the day before has
    the ordinal one less, which is what subtracting [timedelta(days=1)]
    means. *)
Lemma datetime_days_before_year_succ (y : Z) :
  datetime._days_before_year (y + 1)
  = datetime._days_before_year y + 365
    + (if datetime._is_leap y then 1 else 0).
Proof.
  unfold datetime._days_before_year, datetime._is_leap. cbv zeta.
  replace (y + 1 - 1) with y by lia.
  destruct (y mod 4 =? 0) eqn:E4; destruct (y mod 100 =? 0) eqn:E100;
    destruct (y mod 400 =? 0) eqn:E400; simpl;
    rewrite ?Z.eqb_eq, ?Z.eqb_neq in *;
    Z.div_mod_to_equations; lia.
Qed.

Lemma datetime_days_before_month_succ (y m : Z) :
  1 <= m < 12 ->
  datetime._days_before_month y (m + 1)
  = datetime._days_before_month y m + datetime._days_in_month y m.
Proof.
  intros Hm.
  assert (Hcases : m = 1 \/ m = 2 \/ m = 3 \/ m = 4 \/ m = 5 \/ m = 6
                   \/ m = 7 \/ m = 8 \/ m = 9 \/ m = 10 \/ m = 11) by lia.
  unfold datetime._days_before_month, datetime._days_in_month.
  repeat (destruct Hcases as [->|Hcases]); try subst m;
    destruct (datetime._is_leap y); reflexivity.
Qed.

Lemma datetime_valid_calendar_day (d : datetime.t) :
  datetime.valid d = true -> calendar_day d.
Proof. intros Hv. valid_bounds Hv. unfold calendar_day. lia. Qed.

Lemma datetime_days_in_month_pos (y m : Z) :
  1 <= m <= 12 -> 28 <= datetime._days_in_month y m <= 31.
Proof.
  intros Hm.
  assert (Hcases : m = 1 \/ m = 2 \/ m = 3 \/ m = 4 \/ m = 5 \/ m = 6
                   \/ m = 7 \/ m = 8 \/ m = 9 \/ m = 10 \/ m = 11
                   \/ m = 12) by lia.
  unfold datetime._days_in_month.
  repeat (destruct Hcases as [->|Hcases]); try subst m;
    destruct (datetime._is_leap y); simpl; lia.
Qed.

Lemma datetime_prev_day_calendar_day (d : datetime.t) :
  calendar_day d -> calendar_day (datetime.prev_day d).
Proof.
  unfold calendar_day, datetime.prev_day. intros [Hm Hd].
  destruct (1 <? datetime.day d) eqn:Ed;
    [|destruct (1 <? datetime.month d) eqn:Em];
    cbn [datetime.year datetime.month datetime.day].
  - apply Z.ltb_lt in Ed. lia.
  - apply Z.ltb_lt in Em.
    pose proof (datetime_days_in_month_pos (datetime.year d)
                  (datetime.month d - 1)). lia.
  - pose proof (datetime_days_in_month_pos (datetime.year d - 1) 12). 
    change (datetime._days_in_month (datetime.year d - 1) 12) with 31 in *.
    lia.
Qed.

Lemma datetime_toordinal_prev_day (d : datetime.t) :
  calendar_day d ->
  datetime.toordinal (datetime.prev_day d) = datetime.toordinal d - 1.
Proof.
  intros [Hm Hd].
  unfold datetime.toordinal, datetime._ymd2ord, datetime.prev_day.
  destruct (1 <? datetime.day d) eqn:Ed;
    [|destruct (1 <? datetime.month d) eqn:Em];
    cbn [datetime.year datetime.month datetime.day].
  - lia.
  - apply Z.ltb_ge in Ed. apply Z.ltb_lt in Em.
    pose proof (datetime_days_before_month_succ (datetime.year d)
                  (datetime.month d - 1)) as Hs.
    replace (datetime.month d - 1 + 1) with (datetime.month d) in Hs by lia.
    rewrite Hs by lia. lia.
  - apply Z.ltb_ge in Ed. apply Z.ltb_ge in Em.
    assert (Hm1 : datetime.month d = 1) by lia.
    pose proof (datetime_days_before_year_succ (datetime.year d - 1)) as Hs.
    replace (datetime.year d - 1 + 1) with (datetime.year d) in Hs by lia.
    rewrite Hs, Hm1. unfold datetime._days_before_month.
    destruct (datetime._is_leap (datetime.year d - 1)),
      (datetime._is_leap (datetime.year d)); simpl; lia.
Qed.

Lemma datetime_toordinal_iter_prev_day (n : nat) (d : datetime.t) :
  calendar_day d ->
  calendar_day (Nat.iter n datetime.prev_day d)
  /\ datetime.toordinal (Nat.iter n datetime.prev_day d)
     = datetime.toordinal d - Z.of_nat n.
Proof.
  intros Hd. induction n as [|n [IHc IHo]].
  - simpl. split; [exact Hd|lia].
  - change (Nat.iter (S n) datetime.prev_day d)
      with (datetime.prev_day (Nat.iter n datetime.prev_day d)).
    split; [now apply datetime_prev_day_calendar_day|].
    rewrite datetime_toordinal_prev_day by exact IHc. lia.
Qed.

(** [d - timedelta(days=n)] has the ordinal of [d] less [n]. *)
Lemma datetime_sub_days_toordinal (d r : datetime.t) (n : Z) :
  calendar_day d -> 0 <= n ->
  datetime.sub_days d n = Ok r ->
  datetime.toordinal r = datetime.toordinal d - n.
Proof.
  intros Hd Hn. unfold datetime.sub_days.
  destruct (_ <? _); [discriminate|]. intros [= <-].
  destruct (datetime_toordinal_iter_prev_day (Z.to_nat n) d Hd) as [_ ->].
  lia.
Qed.

(** The week of [get_financials] starts on a Monday. *)
Lemma datetime_week_start_monday (now week_start : datetime.t) :
  datetime.valid now = true ->
  datetime.sub_days (datetime.replace_midnight now) (datetime.weekday now)
  = Ok week_start ->
  datetime.weekday week_start = 0.
Proof.
  intros Hv Hws. apply datetime_valid_calendar_day in Hv.
  pose proof (datetime_weekday_range now) as Hw.
  apply datetime_sub_days_toordinal in Hws; [|exact Hv|lia].
  unfold datetime.weekday in *. rewrite Hws.
  change (datetime.toordinal (datetime.replace_midnight now))
    with (datetime.toordinal now).
  Z.div_mod_to_equations. lia.
Qed.

Example datetime_weekday_sample :
  datetime.weekday sample_now = 2 /\ datetime.weekday boundary_now = 4.
Proof. split; reflexivity. Qed.

(** ** Financial aggregation *)

(** A window that starts earlier collects at least as much. *)
Lemma window_total_mono (txs : list FinancialTransaction.t)
  (later earlier : datetime.t) :
  Forall (fun t => 0 <= FinancialTransaction.amount t) txs ->
  datetime.ge later earlier = true ->
  window_total txs later <= window_total txs earlier.
Proof.
  intros Hnn Hle. unfold window_total.
  induction Hnn as [|t txs Ht _ IH]; simpl; [lia|].
  destruct (datetime.ge (FinancialTransaction.transaction_date t) later) eqn:E.
  - rewrite (datetime_ge_trans _ _ _ E Hle). simpl. rewrite !sum_cons. lia.
  - destruct (datetime.ge (FinancialTransaction.transaction_date t) earlier);
      simpl; rewrite ?sum_cons; lia.
Qed.

Lemma window_total_nonneg (txs : list FinancialTransaction.t)
  (start : datetime.t) :
  Forall (fun t => 0 <= FinancialTransaction.amount t) txs ->
  0 <= window_total txs start.
Proof.
  intros Hnn. unfold window_total. apply sum_nonneg.
  induction Hnn as [|t txs Ht _ IH]; simpl; [constructor|].
  destruct (datetime.ge _ _); simpl; auto.
Qed.

Lemma window_total_le_total (txs : list FinancialTransaction.t)
  (start : datetime.t) :
  Forall (fun t => 0 <= FinancialTransaction.amount t) txs ->
  window_total txs start <= sum (map FinancialTransaction.amount txs).
Proof.
  intros Hnn. unfold window_total.
  induction Hnn as [|t txs Ht _ IH]; simpl; [lia|].
  destruct (datetime.ge _ _); simpl; rewrite ?sum_cons; lia.
Qed.

Lemma amounts_nonneg_live (db : Session) :
  amounts_nonneg db ->
  Forall (fun t => 0 <= FinancialTransaction.amount t)
    (filter (fun t => Bool.eqb (FinancialTransaction.is_deleted t) false)
       (financial_transactions db)).
Proof.
  intros Hnn. apply Forall_forall. intros t Hin.
  apply filter_In in Hin. destruct Hin as [Hin Hlive].
  apply Hnn; [exact Hin|]. now destruct (FinancialTransaction.is_deleted t).
Qed.

(** C2 (as amended).  For a valid [now] after year 1 and non-negative
    amounts, the request succeeds and its sums satisfy
    yearly >= monthly >= daily >= 0, weekly >= daily, total >= yearly and
    total >= weekly.  The weekly sum is bounded by the monthly (yearly) one
    when the Monday that starts the week is not before the first of the
    month (the first of January). *)
Theorem financial_window_totals_ordered current_user db now :
  datetime.valid now = true ->
  datetime.MINYEAR < datetime.year now ->
  amounts_nonneg db ->
  exists resp week_start,
    get_financials current_user db now = Ok resp
    /\ datetime.sub_days (datetime.replace_midnight now) (datetime.weekday now)
       = Ok week_start
    /\ 0 <= FinancialPeriod.daily (FinancialResponse.period resp)
    /\ FinancialPeriod.daily (FinancialResponse.period resp)
       <= FinancialPeriod.monthly (FinancialResponse.period resp)
    /\ FinancialPeriod.monthly (FinancialResponse.period resp)
       <= FinancialPeriod.yearly (FinancialResponse.period resp)
    /\ FinancialPeriod.yearly (FinancialResponse.period resp)
       <= FinancialResponse.total resp
    /\ FinancialPeriod.daily (FinancialResponse.period resp)
       <= FinancialPeriod.weekly (FinancialResponse.period resp)
    /\ FinancialPeriod.weekly (FinancialResponse.period resp)
       <= FinancialResponse.total resp
    /\ (datetime.ge week_start (datetime.replace_day1_midnight now) = true ->
        FinancialPeriod.weekly (FinancialResponse.period resp)
        <= FinancialPeriod.monthly (FinancialResponse.period resp))
    /\ (datetime.ge week_start (datetime.replace_jan1_midnight now) = true ->
        FinancialPeriod.weekly (FinancialResponse.period resp)
        <= FinancialPeriod.yearly (FinancialResponse.period resp)).
Proof.
  intros Hv Hy Hnn.
  destruct (datetime_week_start_exists now Hy) as [week_start Hws].
  pose proof (amounts_nonneg_live db Hnn) as Hlive.
  unfold get_financials. rewrite Hws. simpl.
  eexists. exists week_start. split; [reflexivity|]. split; [reflexivity|].
  simpl. repeat split.
  - now apply window_total_nonneg.
  - apply window_total_mono; [exact Hlive|].
    now apply datetime_month_start_le_today.
  - apply window_total_mono; [exact Hlive|].
    now apply datetime_year_start_le_month.
  - now apply window_total_le_total.
  - apply window_total_mono; [exact Hlive|].
    apply (datetime_sub_days_le _ _ _ Hws).
  - now apply window_total_le_total.
  - intros Hge. now apply window_total_mono.
  - intros Hge. now apply window_total_mono.
Qed.

Lemma financial_window_totals_ordered_witness :
  exists resp,
    get_financials sample_admin sample_paid_session sample_later = Ok resp
    /\ FinancialResponse.period resp = FinancialPeriod.mk 0 120 120 120
    /\ FinancialResponse.total resp = 120.
Proof.
  assert (Hnn : amounts_nonneg sample_paid_session).
  { intros t [<-|[]] _. simpl. lia. }
  destruct (financial_window_totals_ordered sample_admin sample_paid_session
              sample_later eq_refl eq_refl Hnn)
    as (resp & week_start & Hrun & _).
  exists resp. split; [exact Hrun|].
  vm_compute in Hrun. injection Hrun as <-. split; reflexivity.
Defined.

(** C2 as stated fails: on Friday 1 January 2027 a payment of 100 made on
    Tuesday 29 December 2026 counts for the week but neither for the month
    nor for the year, so monthly >= weekly does not hold. *)
Lemma financial_window_totals_not_nested :
  datetime.valid boundary_now = true
  /\ amounts_nonneg boundary_session
  /\ exists resp,
       get_financials sample_admin boundary_session boundary_now = Ok resp
       /\ ~ (FinancialPeriod.yearly (FinancialResponse.period resp)
             >= FinancialPeriod.monthly (FinancialResponse.period resp)
             /\ FinancialPeriod.monthly (FinancialResponse.period resp)
                >= FinancialPeriod.weekly (FinancialResponse.period resp)
             /\ FinancialPeriod.weekly (FinancialResponse.period resp)
                >= FinancialPeriod.daily (FinancialResponse.period resp)
             /\ FinancialPeriod.daily (FinancialResponse.period resp) >= 0
             /\ FinancialResponse.total resp
                >= FinancialPeriod.yearly (FinancialResponse.period resp)).
Proof.
  split; [reflexivity|]. split.
  - intros t [<-|[]] _. simpl. lia.
  - eexists. split; [vm_compute; reflexivity|].
    simpl. intros (_ & Hmw & _). vm_compute in Hmw. apply Hmw. reflexivity.
Qed.

(** The loop that builds [details] appends, in order, one entry for each
    transaction whose owner exists and is not deleted. *)
Lemma details_loop_entries db txs details :
  fold_left (details_step db) txs details
  = details ++ map detail_entry (owned_entries db txs).
Proof.
  revert details. induction txs as [|tx txs IH]; intros details; simpl.
  - now rewrite app_nil_r.
  - rewrite IH. unfold details_step. fold (owner db tx).
    destruct (owner db tx) as [c|]; [|reflexivity].
    destruct (Customer.is_deleted c); simpl; [reflexivity|].
    now rewrite <- app_assoc.
Qed.

Lemma owned_entries_listed db txs :
  map fst
    (owned_entries db
       (filter (fun t => Bool.eqb (FinancialTransaction.is_deleted t) false)
          txs))
  = filter (listed db) txs.
Proof.
  unfold owned_entries, listed.
  induction txs as [|tx txs IH]; simpl; [reflexivity|].
  destruct (FinancialTransaction.is_deleted tx); simpl; [exact IH|].
  destruct (owner db tx) as [c|]; [|exact IH].
  destruct (Customer.is_deleted c); simpl; [exact IH|]. now rewrite IH.
Qed.

Lemma owned_entries_owner db txs :
  Forall (fun tc => owner db (fst tc) = Some (snd tc)
                    /\ Customer.is_deleted (snd tc) = false)
    (owned_entries db txs).
Proof.
  unfold owned_entries. induction txs as [|tx txs IH]; simpl; [constructor|].
  destruct (owner db tx) as [c|] eqn:Hown; [|exact IH].
  destruct (Customer.is_deleted c) eqn:Hdel; simpl; [exact IH|].
  constructor; [now split|exact IH].
Qed.

(** C8.  The detail list has, in table order, exactly one entry for each
    FinancialTransaction that is not deleted and whose owning Customer
    exists and is not deleted; the entry carries that Customer's id and
    name and the transaction's amount and timestamp.  Transactions that are
    deleted, or whose Customer is deleted or absent, have no entry. *)
Theorem financial_details_one_per_listed_transaction current_user db now :
  datetime.MINYEAR < datetime.year now ->
  exists resp entries,
    get_financials current_user db now = Ok resp
    /\ map fst entries = filter (listed db) (financial_transactions db)
    /\ Forall (fun tc => owner db (fst tc) = Some (snd tc)
                         /\ Customer.is_deleted (snd tc) = false)
         entries
    /\ FinancialResponse.details resp = map detail_entry entries.
Proof.
  intros Hy. destruct (datetime_week_start_exists now Hy) as [week_start Hws].
  unfold get_financials. rewrite Hws. simpl.
  eexists. eexists. split; [reflexivity|]. simpl.
  rewrite details_loop_entries. simpl.
  split; [apply owned_entries_listed|].
  split; [apply owned_entries_owner|reflexivity].
Qed.

Lemma financial_details_one_per_listed_transaction_witness :
  exists resp,
    get_financials sample_admin sample_paid_session sample_later = Ok resp
    /\ FinancialResponse.details resp
       = [FinancialDetail.mk 1 "Ada" 120 sample_now].
Proof.
  destruct (financial_details_one_per_listed_transaction sample_admin
              sample_paid_session sample_later eq_refl)
    as (resp & entries & Hrun & _).
  exists resp. split; [exact Hrun|].
  vm_compute in Hrun. injection Hrun as <-. reflexivity.
Defined.

(** ** Partnership statistics *)

Section SortedReverse.
Context {A : Type} (key : A -> Z).

Lemma insert_reverse_perm (x : A) (l : list A) :
  Permutation (insert_reverse key x l) (x :: l).
Proof.
  induction l as [|y l IH]; simpl; [reflexivity|].
  destruct (key x <? key y); [|reflexivity].
  rewrite IH. apply perm_swap.
Qed.

Lemma sorted_reverse_perm (l : list A) : Permutation (sorted_reverse key l) l.
Proof.
  induction l as [|x l IH]; simpl; [reflexivity|].
  rewrite insert_reverse_perm. now constructor.
Qed.

Lemma insert_reverse_sorted (x : A) (l : list A) :
  StronglySorted (descending key) l -> StronglySorted (descending key) (insert_reverse key x l).
Proof.
  induction 1 as [|y l Hl IH Hy]; simpl.
  - repeat constructor.
  - destruct (key x <? key y) eqn:E.
    + constructor; [exact IH|].
      eapply Permutation_Forall;
        [symmetry; apply insert_reverse_perm|].
      constructor; [|exact Hy]. apply Z.ltb_lt in E. unfold descending. lia.
    + apply Z.ltb_ge in E. constructor.
      * now constructor.
      * constructor; [exact E|].
        eapply Forall_impl; [|exact Hy]. unfold descending. intros z Hz. lia.
Qed.

Lemma sorted_reverse_sorted (l : list A) :
  StronglySorted (descending key) (sorted_reverse key l).
Proof.
  induction l as [|x l IH]; simpl; [constructor|].
  now apply insert_reverse_sorted.
Qed.

(** Stability: an inserted row overtakes only rows of a larger key, so
    among the rows of any one key it stays first. *)
Lemma insert_reverse_stable (k : Z) (x : A) (l : list A) :
  filter (fun a => key a =? k) (insert_reverse key x l)
  = filter (fun a => key a =? k) (x :: l).
Proof.
  induction l as [|y l IH]; [reflexivity|].
  cbn [insert_reverse]. destruct (key x <? key y) eqn:E; [|reflexivity].
  apply Z.ltb_lt in E. cbn [filter] in *. rewrite IH.
  destruct (key x =? k) eqn:Ex; [|reflexivity].
  apply Z.eqb_eq in Ex.
  assert ((key y =? k) = false) as -> by (apply Z.eqb_neq; lia).
  reflexivity.
Qed.

Lemma sorted_reverse_stable (k : Z) (l : list A) :
  filter (fun a => key a =? k) (sorted_reverse key l)
  = filter (fun a => key a =? k) l.
Proof.
  induction l as [|x l IH]; [reflexivity|].
  cbn [sorted_reverse fold_right]. rewrite insert_reverse_stable.
  cbn [filter]. fold (sorted_reverse key l). now rewrite IH.
Qed.
End SortedReverse.

Lemma total_amount_loop (cs : list Customer.t) (start : Z) :
  fold_left
    (fun total_amount customer =>
       let prices := json.loads_or_empty (Customer.prices customer) in
       total_amount + sum prices)
    cs start
  = start + sum (map decoded_total cs).
Proof.
  revert start. induction cs as [|c cs IH]; intros start; simpl.
  - rewrite sum_nil. lia.
  - rewrite IH, sum_cons. unfold decoded_total. lia.
Qed.

Lemma stats_step_entry db stats code :
  stats_step db stats code = stats ++ [stats_entry db code].
Proof.
  unfold stats_step, stats_entry, referred_by. cbv zeta.
  rewrite total_amount_loop. simpl.
  erewrite filter_ext; [reflexivity|].
  intros c. simpl. destruct (Customer.partnership_code c); simpl;
    now rewrite ?eqb_false_r.
Qed.

Lemma stats_loop_entries db codes stats :
  fold_left (stats_step db) codes stats
  = stats ++ map (stats_entry db) codes.
Proof.
  revert stats. induction codes as [|code codes IH]; intros stats; simpl.
  - now rewrite app_nil_r.
  - rewrite IH, stats_step_entry, <- app_assoc. reflexivity.
Qed.

(** C4.  The statistics are the entries of all PartnershipCode rows, active
    or not, one per row: the code, the number of non-deleted Customers
    whose [partnership_code] is that code, and the sum over those Customers
    of the sum of their decoded prices.  They come largest total first,
    rows of equal total in the order of the PartnershipCode table, and do
    not depend on the FinancialTransaction table. *)
Theorem partnership_stats_per_code_sorted_stable current_user db :
  Permutation (get_partnership_stats current_user db)
    (map (stats_entry db) (partnership_codes db))
  /\ StronglySorted (descending PartnershipStats.total_amount)
       (get_partnership_stats current_user db)
  /\ (forall amount,
         filter (fun s => PartnershipStats.total_amount s =? amount)
           (get_partnership_stats current_user db)
         = filter (fun s => PartnershipStats.total_amount s =? amount)
             (map (stats_entry db) (partnership_codes db)))
  /\ (forall transactions,
         get_partnership_stats current_user
           (mkSession (users db) (customers db) (partnership_codes db)
              transactions)
         = get_partnership_stats current_user db).
Proof.
  unfold get_partnership_stats. rewrite stats_loop_entries. simpl.
  split; [apply sorted_reverse_perm|].
  split; [apply sorted_reverse_sorted|].
  split; [intros amount; apply sorted_reverse_stable|].
  intros transactions. simpl. rewrite stats_loop_entries. reflexivity.
Qed.

Example partnership_stats_scenario :
  get_partnership_stats sample_admin scenario_session
  = [PartnershipStats.mk "PARTNER10" 2 100; PartnershipStats.mk "OLD5" 0 0].
Proof. reflexivity. Qed.

(** ** The scenarios of the specification *)

(** Enrol with prices 50 and 70 and ask for the financials the same day:
    every sum is 120. *)
Example scenario_enrol_then_financials :
  (r <- create_customer (sample_enrollment [50; 70] None) sample_admin
          sample_session sample_now ;;
   resp <- get_financials sample_admin (fst r) sample_now ;;
   Ok (FinancialResponse.period resp, FinancialResponse.total resp))
  = Ok (FinancialPeriod.mk 120 120 120 120, 120).
Proof. reflexivity. Qed.

(** Delete that customer and ask again: every sum is 0 and no detail is
    left. *)
Example scenario_delete_then_financials :
  (r <- create_customer (sample_enrollment [50; 70] None) sample_admin
          sample_session sample_now ;;
   r' <- delete_customer 1 sample_admin (fst r) sample_now ;;
   get_financials sample_admin (fst r') sample_now)
  = Ok (FinancialResponse.mk (FinancialPeriod.mk 0 0 0 0) [] 0).
Proof. reflexivity. Qed.

(** * Further properties of the handlers *)

(** ** What a request can do to a table *)

Section RowUpdates.
Context {A B : Type}.
Implicit Types (p : A -> bool) (f : A -> A) (g : A -> B) (rows : list A).

Lemma map_update_first_fixed g p f rows :
  (forall r, g (f r) = g r) -> map g (update_first p f rows) = map g rows.
Proof.
  intros Hf. induction rows as [|r rows IH]; simpl; [reflexivity|].
  destruct (p r); simpl; [now rewrite Hf|now rewrite IH].
Qed.

Lemma map_update_all_fixed g p f rows :
  (forall r, g (f r) = g r) -> map g (update_all p f rows) = map g rows.
Proof.
  intros Hf. unfold update_all. rewrite map_map. apply map_ext.
  intros r. destruct (p r); [apply Hf|reflexivity].
Qed.

Lemma update_first_nth_error p f rows i r :
  nth_error rows i = Some r ->
  nth_error (update_first p f rows) i = Some r
  \/ (p r = true /\ nth_error (update_first p f rows) i = Some (f r)).
Proof.
  revert i. induction rows as [|r0 rows IH]; intros [|i]; simpl;
    try discriminate.
  - intros [= ->]. destruct (p r) eqn:E; simpl; auto.
  - intros Hi. destruct (p r0); simpl; auto.
Qed.

Lemma nth_error_app_old rows (more : list A) i r :
  nth_error rows i = Some r -> nth_error (rows ++ more) i = Some r.
Proof.
  intros Hi. rewrite nth_error_app1; [exact Hi|].
  apply nth_error_Some. congruence.
Qed.
End RowUpdates.

Lemma extends_refl {A} (l : list A) : extends l l.
Proof. exists []. now rewrite app_nil_r. Qed.

Lemma extends_app {A} (l more : list A) : extends l (l ++ more).
Proof. now exists more. Qed.

Lemma update_fields_fixed user_data user :
  User_fixed (update_fields user_data user) = User_fixed user.
Proof.
  pose proof (update_fields_spec user_data user) as H. cbv zeta in H.
  decompose [and] H. unfold User_fixed. congruence.
Qed.

(** Split a goal about [handle] into the outcomes of the handler that
    serves the request. *)
Ltac handle_cases req :=
  destruct req; cbn [handle];
  [ rewrite create_customer_run; destruct (code_accepted _ _)
  | rewrite delete_customer_run; destruct (first _)
  | unfold create_partnership_code; destruct (first _)
  | unfold delete_partnership_code; destruct (first _)
  | unfold create_user; destruct (first _)
  | unfold update_user; destruct (first _);
    [destruct (is_protected _)|]
  | unfold delete_user; destruct (first _);
    [destruct (is_protected _)|] ];
  cbv zeta;
  cbn [session_after users customers partnership_codes financial_transactions
       add_partnership_code add_user].

(** X1.  No request removes a row, reorders a table or rewrites a column
    other than the soft-delete columns of customers and transactions, the
    active flag of partnership codes, and the active and permission flags
    of users: with those reset, every table after the request is the table
    before it, possibly with rows added at the end. *)
Theorem handle_only_appends_and_flags hash req current_user db now :
  let db' := handle hash req current_user db now in
  extends (map User_fixed (users db)) (map User_fixed (users db'))
  /\ extends (map Customer_fixed (customers db))
       (map Customer_fixed (customers db'))
  /\ extends (map PartnershipCode_fixed (partnership_codes db))
       (map PartnershipCode_fixed (partnership_codes db'))
  /\ extends (map FinancialTransaction_fixed (financial_transactions db))
       (map FinancialTransaction_fixed (financial_transactions db')).
Proof.
  cbv zeta. handle_cases req;
    repeat split;
    rewrite ?map_app;
    rewrite ?map_update_first_fixed
      by (intros; (reflexivity || apply update_fields_fixed));
    rewrite ?map_update_all_fixed by (intros; reflexivity);
    (apply extends_refl || apply extends_app).
Qed.

Lemma NoDup_next_id (ids : list Z) :
  NoDup ids -> NoDup (ids ++ [next_id ids]).
Proof.
  intros Hnd. apply NoDup_app; [exact Hnd|repeat constructor; intros []|].
  intros x Hin [<-|[]]. pose proof (next_id_fresh ids _ Hin). lia.
Qed.



(** X3.  The soft-delete and deactivation flags only go one way: a
    Customer or FinancialTransaction that is deleted, and a PartnershipCode
    that is inactive, is still so, in the same place and under the same id,
    after any request. *)
Theorem handle_never_undeletes hash req current_user db now i :
  let db' := handle hash req current_user db now in
  (forall c, nth_error (customers db) i = Some c ->
             Customer.is_deleted c = true ->
             exists c', nth_error (customers db') i = Some c'
                        /\ Customer.id c' = Customer.id c
                        /\ Customer.is_deleted c' = true)
  /\ (forall t, nth_error (financial_transactions db) i = Some t ->
                FinancialTransaction.is_deleted t = true ->
                exists t', nth_error (financial_transactions db') i = Some t'
                           /\ FinancialTransaction.id t'
                              = FinancialTransaction.id t
                           /\ FinancialTransaction.is_deleted t' = true)
  /\ (forall pc, nth_error (partnership_codes db) i = Some pc ->
                 PartnershipCode.is_active pc = false ->
                 exists pc', nth_error (partnership_codes db') i = Some pc'
                             /\ PartnershipCode.id pc' = PartnershipCode.id pc
                             /\ PartnershipCode.is_active pc' = false).
Proof.
  cbv zeta.
  handle_cases req; repeat split; intros r Hi Hflag;
    try (exists r; repeat split; try assumption;
         apply nth_error_app_old; assumption).
  - (* delete_customer: the customer row *)
    match goal with
    | |- context [update_first ?p ?f _] =>
        destruct (update_first_nth_error p f _ _ _ Hi) as [H|[_ H]]
    end; eexists; (split; [exact H|]); simpl; auto.
  - (* delete_customer: the transactions *)
    rewrite update_all_nth_error, Hi. simpl. eexists. split; [reflexivity|].
    destruct (cascade_target _ r); simpl; auto.
  - (* delete_partnership_code *)
    match goal with
    | |- context [update_first ?p ?f _] =>
        destruct (update_first_nth_error p f _ _ _ Hi) as [H|[_ H]]
    end; eexists; (split; [exact H|]); simpl; auto.
Qed.

Lemma handle_never_undeletes_witness :
  exists c',
    nth_error
      (customers
         (handle sample_hash (DELETE_customers 1) sample_admin
            sample_deleted_session sample_later)) 0 = Some c'
    /\ Customer.id c' = 1
    /\ Customer.is_deleted c' = true.
Proof.
  apply (proj1 (handle_never_undeletes sample_hash (DELETE_customers 1)
                  sample_admin sample_deleted_session sample_later 0)
           (sample_customer true)); reflexivity.
Defined.

(** The row [.first()] returned is the only one [update_first] rewrites;
    a row that differs from it stays where it is. *)
Lemma update_first_keeps_others {A} (p : A -> bool) (f : A -> A)
  (rows : list A) (found r : A) (i : nat) :
  first (filter p rows) = Some found ->
  nth_error rows i = Some r -> r <> found ->
  nth_error (update_first p f rows) i = Some r.
Proof.
  intros Hfirst Hi Hne.
  destruct (first_filter_Some _ _ _ Hfirst)
    as (before & after & -> & Hp & Hbefore).
  rewrite update_first_split by assumption.
  destruct (Nat.lt_ge_cases i (List.length before)) as [Hlt|Hge].
  - rewrite nth_error_app1 in * by assumption. exact Hi.
  - rewrite nth_error_app2 in * by assumption.
    destruct (i - List.length before)%nat; simpl in *; [congruence|exact Hi].
Qed.

(** X5.  The row of a user with a protected email is never changed: after
    any request it is found unchanged in the same place of the User
    table. *)
Theorem handle_keeps_protected_users hash req current_user db now i u :
  nth_error (users db) i = Some u ->
  is_protected (User.email u) = true ->
  nth_error (users (handle hash req current_user db now)) i = Some u.
Proof.
  intros Hi Hprot. destruct req; cbn [handle].
  - rewrite create_customer_run. now destruct (code_accepted _ _).
  - rewrite delete_customer_run. now destruct (first _).
  - unfold create_partnership_code. now destruct (first _).
  - unfold delete_partnership_code. now destruct (first _).
  - unfold create_user. destruct (first _); simpl; [exact Hi|].
    now apply nth_error_app_old.
  - unfold update_user.
    destruct (first _) as [found|] eqn:Hfirst; [|exact Hi].
    destruct (is_protected (User.email found)) eqn:Hfound; [exact Hi|].
    simpl. eapply update_first_keeps_others; eauto. congruence.
  - unfold delete_user.
    destruct (first _) as [found|] eqn:Hfirst; [|exact Hi].
    destruct (is_protected (User.email found)) eqn:Hfound; [exact Hi|].
    simpl. eapply update_first_keeps_others; eauto. congruence.
Qed.

Lemma handle_keeps_protected_users_witness :
  nth_error
    (users (handle sample_hash (DELETE_users 2) sample_staff
              sample_users_session sample_now)) 1
  = Some sample_protected.
Proof.
  apply handle_keeps_protected_users; reflexivity.
Defined.

(** ** Partnership codes over time *)

Lemma In_update_first_inv {A} (p : A -> bool) (f : A -> A) (rows : list A)
  (r : A) :
  In r (update_first p f rows) ->
  In r rows \/ exists r0, In r0 rows /\ p r0 = true /\ r = f r0.
Proof.
  induction rows as [|r0 rows IH]; simpl; [intros []|].
  destruct (p r0) eqn:E; simpl.
  - intros [<-|Hin]; [right; exists r0; auto|auto].
  - intros [<-|Hin]; [auto|].
    destruct (IH Hin) as [H|(r1 & H1 & H2 & H3)]; [auto|].
    right. exists r1. auto.
Qed.

Lemma In_update_first {A} (p : A -> bool) (f : A -> A) (rows : list A)
  (r : A) :
  In r rows -> In r (update_first p f rows) \/ In (f r) (update_first p f rows).
Proof.
  induction rows as [|r0 rows IH]; simpl; [intros []|].
  destruct (p r0) eqn:E; simpl.
  - intros [<-|Hin]; auto.
  - intros [<-|Hin]; [auto|]. destruct (IH Hin); auto.
Qed.

Lemma code_retired_same_codes db db' code :
  partnership_codes db' = partnership_codes db ->
  code_retired db code -> code_retired db' code.
Proof. unfold code_retired. now intros ->. Qed.

Lemma handle_keeps_codes hash req current_user db now :
  match req with
  | POST_partnership_codes _ | DELETE_partnership_codes _ => True
  | _ => partnership_codes (handle hash req current_user db now)
         = partnership_codes db
  end.
Proof.
  destruct req; cbn [handle]; auto.
  - rewrite create_customer_run. now destruct (code_accepted _ _).
  - rewrite delete_customer_run. now destruct (first _).
  - unfold create_user. now destruct (first _).
  - unfold update_user. destruct (first _); [|reflexivity].
    now destruct (is_protected _).
  - unfold delete_user. destruct (first _); [|reflexivity].
    now destruct (is_protected _).
Qed.

Lemma code_retired_handle hash req current_user db now code :
  code_retired db code ->
  code_retired (handle hash req current_user db now) code.
Proof.
  intros Hret.
  pose proof (handle_keeps_codes hash req current_user db now) as Hk.
  destruct req; cbn [handle];
    try exact (code_retired_same_codes db _ code Hk Hret); clear Hk.
  - (* create_partnership_code *)
    unfold create_partnership_code.
    destruct (first _) eqn:Hfirst; [exact Hret|].
    cbn [session_after add_partnership_code partnership_codes].
    destruct Hret as [(pc & Hin & Hcode) Hall].
    rewrite first_filter_None in Hfirst.
    split.
    + exists pc. split; [apply in_or_app; now left|exact Hcode].
    + intros pc' Hin' Hcode'. apply in_app_or in Hin'.
      destruct Hin' as [Hin'|[<-|[]]]; [now apply Hall|].
      simpl in Hcode'. specialize (Hfirst pc Hin).
      rewrite Hcode, <- Hcode', String.eqb_refl in Hfirst. discriminate.
  - (* delete_partnership_code *)
    unfold delete_partnership_code.
    destruct (first _); [|exact Hret].
    cbn [session_after partnership_codes].
    destruct Hret as [(pc & Hin & Hcode) Hall]. split.
    + destruct (In_update_first
                  (fun pc => PartnershipCode.id pc =? code_id)
                  (fun code => PartnershipCode_set_is_active code false)
                  _ pc Hin) as [H|H]; eexists; (split; [exact H|exact Hcode]).
    + intros pc' Hin' Hcode'.
      destruct (In_update_first_inv _ _ _ _ Hin')
        as [H|(pc0 & H0 & _ & ->)]; [now apply Hall|reflexivity].
Qed.

Lemma code_retired_handle_all hash calls db code :
  code_retired db code -> code_retired (handle_all hash calls db) code.
Proof.
  revert db. induction calls as [|[[req u] t] calls IH]; intros db Hret;
    [exact Hret|].
  simpl. apply IH. now apply code_retired_handle.
Qed.

Lemma code_retired_refused db code customer current_user now :
  code_retired db code -> code <> EmptyString ->
  CustomerCreate.partnership_code customer = Some code ->
  create_customer customer current_user db now
  = Raise (HTTPException HTTP_400_BAD_REQUEST
             "Invalid or inactive partnership code").
Proof.
  intros [_ Hall] Hne Hcode. rewrite create_customer_run.
  assert (Hacc : code_accepted customer db = false).
  { unfold code_accepted. rewrite Hcode.
    apply truthy_Some in Hne. rewrite Hne. simpl.
    apply not_true_is_false. intros Hex.
    apply existsb_exists in Hex. destruct Hex as (pc & Hin & Hpc).
    apply andb_prop in Hpc. destruct Hpc as [Heq Hact].
    apply String.eqb_eq in Heq. rewrite (Hall pc Hin Heq) in Hact.
    discriminate. }
  now rewrite Hacc.
Qed.

(** X4.  No request reactivates a partnership code or files it anew: once a
    code string is on file with no active row, it is so after any sequence
    of requests, and an enrollment that names it is refused with 400. *)
Theorem retired_code_is_never_accepted_again
  hash calls db code customer current_user now :
  code_retired db code -> code <> EmptyString ->
  CustomerCreate.partnership_code customer = Some code ->
  code_retired (handle_all hash calls db) code
  /\ create_customer customer current_user (handle_all hash calls db) now
     = Raise (HTTPException HTTP_400_BAD_REQUEST
                "Invalid or inactive partnership code").
Proof.
  intros Hret Hne Hcode.
  pose proof (code_retired_handle_all hash calls db code Hret) as Hret'.
  split; [exact Hret'|].
  now apply (code_retired_refused _ code).
Qed.

Lemma retired_code_is_never_accepted_again_witness :
  create_customer (sample_enrollment [100] (Some "PARTNER10")) sample_admin
    (handle_all sample_hash
       [(POST_partnership_codes (PartnershipCodeCreate.mk "PARTNER10"),
         sample_admin, sample_later);
        (PUT_users 3 sample_update, sample_admin, sample_later)]
       scenario_inactive_session)
    sample_later
  = Raise (HTTPException HTTP_400_BAD_REQUEST
             "Invalid or inactive partnership code").
Proof.
  apply (retired_code_is_never_accepted_again sample_hash _
           scenario_inactive_session "PARTNER10").
  - split.
    + eexists. split; [right; left; reflexivity|reflexivity].
    + simpl. intros pc [<-|[<-|[]]] Hcode; [discriminate|reflexivity].
  - discriminate.
  - reflexivity.
Defined.

Lemma NoDup_map_eq {A B} (g : A -> B) (rows : list A) (a b : A) :
  NoDup (map g rows) -> In a rows -> In b rows -> g a = g b -> a = b.
Proof.
  induction rows as [|r rows IH]; simpl; [intros _ []|].
  intros Hnd. apply NoDup_cons_iff in Hnd. destruct Hnd as [Hnotin Hnd].
  intros [<-|Ha] [<-|Hb] Heq; auto.
  - exfalso. apply Hnotin. rewrite Heq. now apply in_map.
  - exfalso. apply Hnotin. rewrite <- Heq. now apply in_map.
Qed.

(** X6.  Deactivating a partnership code whose string no other row shares
    retires it: from then on, whatever requests follow, an enrollment that
    names the code is refused with 400. *)
Theorem deactivated_code_is_refused
  hash calls code_id current_user db pc customer current_user' now' :
  NoDup (map PartnershipCode.code (partnership_codes db)) ->
  first (filter (fun pc => PartnershipCode.id pc =? code_id)
           (partnership_codes db)) = Some pc ->
  PartnershipCode.code pc <> EmptyString ->
  CustomerCreate.partnership_code customer = Some (PartnershipCode.code pc) ->
  create_customer customer current_user'
    (handle_all hash calls
       (session_after db (delete_partnership_code code_id current_user db)))
    now'
  = Raise (HTTPException HTTP_400_BAD_REQUEST
             "Invalid or inactive partnership code").
Proof.
  intros Hnd Hfirst Hne Hcode.
  apply (code_retired_refused _ (PartnershipCode.code pc)); auto.
  apply code_retired_handle_all.
  unfold delete_partnership_code. rewrite Hfirst.
  cbn [session_after partnership_codes].
  destruct (first_filter_Some _ _ _ Hfirst)
    as (before & after & Hrows & Hid & Hbefore).
  assert (Hin : In pc (partnership_codes db)).
  { rewrite Hrows. apply in_or_app. right. now left. }
  split.
  - exists (PartnershipCode_set_is_active pc false). split; [|reflexivity].
    rewrite Hrows, update_first_split by assumption.
    apply in_or_app. right. now left.
  - intros pc' Hin' Hcode'.
    destruct (In_update_first_inv _ _ _ _ Hin')
      as [H|(pc0 & H0 & _ & ->)]; [|reflexivity].
    assert (pc' = pc) as -> by (eapply NoDup_map_eq; eauto).
    rewrite Hrows, update_first_split in Hin' by assumption.
    rewrite Hrows in Hnd. rewrite map_app in Hnd. simpl in Hnd.
    apply NoDup_remove_2 in Hnd.
    apply in_app_or in Hin'. destruct Hin' as [Hb|[Heq|Ha]].
    + exfalso. apply Hnd. apply in_or_app. left. now apply in_map.
    + now rewrite <- Heq.
    + exfalso. apply Hnd. apply in_or_app. right. now apply in_map.
Qed.

Lemma deactivated_code_is_refused_witness :
  create_customer (sample_enrollment [100] (Some "PARTNER10")) sample_admin
    (handle_all sample_hash
       [(POST_customers (sample_enrollment [30] None), sample_admin,
         sample_later)]
       (session_after scenario_session
          (delete_partnership_code 2 sample_admin scenario_session)))
    sample_later
  = Raise (HTTPException HTTP_400_BAD_REQUEST
             "Invalid or inactive partnership code").
Proof.
  apply (deactivated_code_is_refused sample_hash _ 2 sample_admin
           scenario_session (PartnershipCode.mk 2 "PARTNER10" true sample_now)).
  - simpl. repeat constructor; simpl; intuition discriminate.
  - reflexivity.
  - discriminate.
  - reflexivity.
Defined.

Lemma NoDup_snoc {A} (l : list A) (x : A) :
  NoDup l -> ~ In x l -> NoDup (l ++ [x]).
Proof.
  intros Hnd Hx. apply NoDup_app; [exact Hnd|repeat constructor; intros []|].
  intros y Hin [<-|[]]. auto.
Qed.

Lemma first_filter_None_not_In {A} (g : A -> string) (rows : list A)
  (s : string) :
  first (filter (fun r => String.eqb (g r) s) rows) = None ->
  ~ In s (map g rows).
Proof.
  rewrite first_filter_None. intros Hnone Hin.
  apply in_map_iff in Hin. destruct Hin as (r & <- & Hr).
  specialize (Hnone r Hr). rewrite String.eqb_refl in Hnone. discriminate.
Qed.

(** X7.  Emails stay unique: when no two users share an email, no request
    brings about two users that do. *)
Theorem handle_keeps_emails_unique hash req current_user db now :
  NoDup (map User.email (users db)) ->
  NoDup (map User.email (users (handle hash req current_user db now))).
Proof.
  intros Hnd.
  destruct req; cbn [handle].
  - rewrite create_customer_run. now destruct (code_accepted _ _).
  - rewrite delete_customer_run. now destruct (first _).
  - unfold create_partnership_code. now destruct (first _).
  - unfold delete_partnership_code. now destruct (first _).
  - unfold create_user. destruct (first _) eqn:Hfirst; [exact Hnd|].
    cbn [session_after add_user users]. rewrite map_app. simpl.
    apply NoDup_snoc; [exact Hnd|].
    now apply first_filter_None_not_In.
  - unfold update_user. destruct (first _); [|exact Hnd].
    destruct (is_protected _); [exact Hnd|].
    cbn [session_after users].
    rewrite map_update_first_fixed; [exact Hnd|].
    intros r. exact (f_equal (fun x => snd (fst x))
                       (update_fields_fixed user_data r)).
  - unfold delete_user. destruct (first _); [|exact Hnd].
    destruct (is_protected _); [exact Hnd|].
    cbn [session_after users].
    rewrite map_update_first_fixed; [exact Hnd|reflexivity].
Qed.

Lemma handle_keeps_emails_unique_witness :
  NoDup
    (map User.email
       (users
          (handle sample_hash
             (POST_users
                (UserCreate.mk "staff@kampus.com" "pw" true true true true
                   true))
             sample_admin sample_users_session sample_now))).
Proof.
  apply handle_keeps_emails_unique.
  simpl. repeat constructor; simpl; intuition discriminate.
Defined.

(** X8.  Partnership code strings stay unique: when no two rows spell the
    same code, no request brings about two rows that do. *)
Theorem handle_keeps_codes_unique hash req current_user db now :
  NoDup (map PartnershipCode.code (partnership_codes db)) ->
  NoDup (map PartnershipCode.code
           (partnership_codes (handle hash req current_user db now))).
Proof.
  intros Hnd.
  pose proof (handle_keeps_codes hash req current_user db now) as Hk.
  destruct req; cbn [handle]; try (cbn [handle] in Hk; now rewrite Hk).
  - unfold create_partnership_code.
    destruct (first _) eqn:Hfirst; [exact Hnd|].
    cbn [session_after add_partnership_code partnership_codes].
    rewrite map_app. simpl. apply NoDup_snoc; [exact Hnd|].
    now apply first_filter_None_not_In.
  - unfold delete_partnership_code. destruct (first _); [|exact Hnd].
    cbn [session_after partnership_codes].
    rewrite map_update_first_fixed; [exact Hnd|reflexivity].
Qed.

Lemma handle_keeps_codes_unique_witness :
  NoDup
    (map PartnershipCode.code
       (partnership_codes
          (handle sample_hash
             (POST_partnership_codes (PartnershipCodeCreate.mk "OLD5"))
             sample_admin scenario_session sample_now))).
Proof.
  apply handle_keeps_codes_unique.
  simpl. repeat constructor; simpl; intuition discriminate.
Defined.

(** X9.  A partnership code that was just created is accepted at once: an
    enrollment that names it passes the code check, whoever sends it. *)
Theorem created_code_is_accepted
  code_data current_user db now db' pc customer current_user' now' :
  create_partnership_code code_data current_user db now = Ok (db', pc) ->
  CustomerCreate.partnership_code customer
  = Some (PartnershipCodeCreate.code code_data) ->
  exists r, create_customer customer current_user' db' now' = Ok r.
Proof.
  unfold create_partnership_code.
  destruct (first _); [discriminate|]. intros [= <- <-] Hcode.
  apply create_customer_succeeds_iff.
  unfold code_accepted. apply orb_true_iff. right.
  apply existsb_exists. eexists. split.
  - cbn [add_partnership_code partnership_codes].
    apply in_or_app. right. left. reflexivity.
  - rewrite Hcode. simpl. now rewrite String.eqb_refl.
Qed.

Lemma created_code_is_accepted_witness :
  exists r,
    create_customer (sample_enrollment [100] (Some "NEW20")) sample_staff
      (session_after sample_session
         (create_partnership_code (PartnershipCodeCreate.mk "NEW20")
            sample_admin sample_session sample_now))
      sample_later
    = Ok r.
Proof.
  eapply (created_code_is_accepted (PartnershipCodeCreate.mk "NEW20")
            sample_admin sample_session sample_now).
  - reflexivity.
  - reflexivity.
Defined.

(** ** The ledger of reachable sessions *)

Lemma decoded_total_new id full_name phone email class_level camps prices
  partnership_code previous_yks_rank city is_paid now :
  decoded_total
    (Customer_new id full_name phone email class_level camps
       (json.dumps prices) partnership_code previous_yks_rank city is_paid now)
  = sum prices.
Proof. reflexivity. Qed.

Lemma ledger_consistent_create_customer customer current_user db now :
  ledger_consistent db ->
  ledger_consistent
    (session_after db (create_customer customer current_user db now)).
Proof.
  intros Hinv. rewrite create_customer_run.
  destruct (code_accepted customer db); [|exact Hinv].
  destruct Hinv as (Hids & Htids & Hpaid & Htx & Hhas).
  cbv zeta. cbn [session_after].
  set (total := sum (CustomerCreate.prices customer)).
  set (new_id := next_id (map Customer.id (customers db))).
  assert (Hfresh : ~ In new_id (map Customer.id (customers db))).
  { intros Hin. pose proof (next_id_fresh _ _ Hin). unfold new_id in *. lia. }
  unfold ledger_consistent.
  cbn [customers financial_transactions].
  repeat split.
  - rewrite map_app. simpl. now apply NoDup_snoc.
  - rewrite map_app. destruct (0 <? total); simpl;
      [|now rewrite app_nil_r].
    apply NoDup_snoc; [exact Htids|].
    intros Hin. apply in_map_iff in Hin. destruct Hin as (t & Ht & Hint).
    destruct (Htx t Hint) as (c & Hc & Hcid & _).
    apply Hfresh. rewrite <- Ht, <- Hcid. now apply in_map.
  - intros c Hin. apply in_app_or in Hin.
    destruct Hin as [Hin|[<-|[]]]; [now apply Hpaid|reflexivity].
  - intros t Hin. apply in_app_or in Hin. destruct Hin as [Hin|Hin].
    + destruct (Htx t Hin) as (c & Hc & Hrest).
      exists c. split; [apply in_or_app; now left|exact Hrest].
    + destruct (0 <? total) eqn:Epos; [|destruct Hin].
      destruct Hin as [<-|[]]. eexists. split.
      * apply in_or_app. right. left. reflexivity.
      * apply Z.ltb_lt in Epos. simpl. repeat split; auto.
  - intros c Hin Hp. apply in_app_or in Hin. destruct Hin as [Hin|[<-|[]]].
    + destruct (Hhas c Hin Hp) as (t & Ht & Hcid).
      exists t. split; [apply in_or_app; now left|exact Hcid].
    + simpl in Hp. fold total in Hp. rewrite Hp. eexists. split.
      * apply in_or_app. right. left. reflexivity.
      * reflexivity.
Qed.

Lemma ledger_consistent_delete_customer customer_id current_user db now :
  ledger_consistent db ->
  ledger_consistent
    (session_after db (delete_customer customer_id current_user db now)).
Proof.
  intros Hinv. rewrite delete_customer_run.
  destruct (first _) as [found|] eqn:Hfirst; [|exact Hinv].
  destruct Hinv as (Hids & Htids & Hpaid & Htx & Hhas).
  cbn [session_after]. unfold ledger_consistent.
  cbn [customers financial_transactions].
  set (mark := fun c => Customer_set_deleted_at
                          (Customer_set_is_deleted c true) (Some now)).
  set (is_it := fun c => Customer.id c =? customer_id).
  destruct (first_filter_Some _ _ _ Hfirst)
    as (before & after & Hrows & Hid & Hbefore).
  assert (Hupd : update_first is_it mark (customers db)
                 = before ++ mark found :: after).
  { rewrite Hrows. now apply update_first_split. }
  assert (Hfound : In found (customers db)).
  { rewrite Hrows. apply in_or_app. right. now left. }
  apply Z.eqb_eq in Hid.
  repeat split.
  - rewrite map_update_first_fixed; [exact Hids|reflexivity].
  - rewrite map_update_all_fixed; [exact Htids|reflexivity].
  - intros c Hin.
    destruct (In_update_first_inv _ _ _ _ Hin) as [H|(c0 & H0 & _ & ->)];
      [now apply Hpaid|exact (Hpaid c0 H0)].
  - intros t' Hin. unfold update_all in Hin. apply in_map_iff in Hin.
    destruct Hin as (t & <- & Hin).
    destruct (Htx t Hin) as (c & Hc & Hcid & Hamt & Hpos & Hdel).
    destruct (Z.eq_dec (FinancialTransaction.customer_id t) customer_id)
      as [Heq|Hne].
    + assert (c = found) as ->
          by (apply (NoDup_map_eq Customer.id (customers db)); auto; lia).
      exists (mark found). split.
      * rewrite Hupd. apply in_or_app. right. now left.
      * unfold cascade_target. apply Z.eqb_eq in Heq. rewrite Heq.
        destruct (FinancialTransaction.is_deleted t) eqn:Ed; simpl;
          rewrite ?Ed; repeat split; auto.
    + exists c. split.
      * destruct (In_update_first is_it mark _ c Hc) as [H|H]; [exact H|].
        rewrite Hupd in *. rewrite Hrows in Hc.
        apply in_app_or in Hc. apply in_or_app.
        destruct Hc as [Hc|[Hc|Hc]]; [now left| |right; now right].
        subst c. lia.
      * unfold cascade_target.
        assert ((FinancialTransaction.customer_id t =? customer_id) = false)
          as -> by now apply Z.eqb_neq.
        simpl. repeat split; auto.
  - intros c' Hin Hp.
    assert (Hsrc : exists c, In c (customers db)
                             /\ Customer.id c = Customer.id c'
                             /\ Customer.is_paid c = Customer.is_paid c').
    { destruct (In_update_first_inv _ _ _ _ Hin) as [H|(c0 & H0 & _ & ->)];
        eexists; eauto. }
    destruct Hsrc as (c & Hc & Hcid & Hcp).
    destruct (Hhas c Hc ltac:(congruence)) as (t & Ht & Htid).
    eexists. split.
    + unfold update_all. apply in_map. exact Ht.
    + destruct (cascade_target customer_id t); simpl; congruence.
Qed.

Lemma ledger_consistent_ledger db db' :
  customers db' = customers db ->
  financial_transactions db' = financial_transactions db ->
  ledger_consistent db -> ledger_consistent db'.
Proof. unfold ledger_consistent. now intros -> ->. Qed.

Lemma reachable_ledger_inv hash db :
  reachable hash db -> ledger_consistent db.
Proof.
  induction 1 as [db Hc Ht|db req current_user now _ IH].
  - unfold ledger_consistent. rewrite Hc, Ht. simpl.
    repeat split; try constructor; intros ? [].
  - pose proof (handle_keeps_ledger hash req current_user db now) as Hk.
    destruct req;
      [ now apply ledger_consistent_create_customer
      | now apply ledger_consistent_delete_customer
      | .. ];
      (destruct Hk as [Hc Ht];
       exact (ledger_consistent_ledger db _ Hc Ht IH)).
Qed.

(** X10.  In every session the API can bring about the two books agree:
    customer ids are unique; a customer is flagged paid exactly when its
    decoded prices sum to more than 0; every transaction belongs to one
    customer, has a positive amount equal to the sum of that customer's
    prices and is deleted exactly when the customer is; every paid customer
    has a transaction and no customer has two. *)
Theorem reachable_ledger_consistent hash db :
  reachable hash db -> ledger_consistent db.
Proof. apply reachable_ledger_inv. Qed.

Lemma reachable_ledger_consistent_witness :
  ledger_consistent sample_deleted_session.
Proof.
  apply (reachable_ledger_consistent sample_hash).
  change sample_deleted_session with
    (handle sample_hash (DELETE_customers 1) sample_admin
       (handle sample_hash (POST_customers (sample_enrollment [50; 70] None))
          sample_admin sample_session sample_now)
       sample_now).
  do 2 apply reachable_step. apply reachable_init; reflexivity.
Defined.

(** X11.  In every session the API can bring about, the amounts of the
    transactions are positive, so the ordering of the window sums of
    [get_financials] needs no assumption on the amounts. *)
Theorem reachable_amounts_positive hash db t :
  reachable hash db -> In t (financial_transactions db) ->
  0 < FinancialTransaction.amount t.
Proof.
  intros Hreach Hin.
  destruct (reachable_ledger_inv hash db Hreach) as (_ & _ & _ & Htx & _).
  destruct (Htx t Hin) as (c & _ & _ & _ & Hpos & _). exact Hpos.
Qed.

Lemma reachable_amounts_positive_witness :
  0 < FinancialTransaction.amount (sample_transaction true).
Proof.
  apply (reachable_amounts_positive sample_hash sample_deleted_session).
  - change sample_deleted_session with
      (handle sample_hash (DELETE_customers 1) sample_admin
         (handle sample_hash
            (POST_customers (sample_enrollment [50; 70] None))
            sample_admin sample_session sample_now)
         sample_now).
    do 2 apply reachable_step. apply reachable_init; reflexivity.
  - left. reflexivity.
Defined.

(** ** Enrollment, deletion and the financial sums *)

Lemma window_total_app txs more start :
  window_total (txs ++ more) start
  = window_total txs start + window_total more start.
Proof. unfold window_total. now rewrite filter_app, map_app, sum_app. Qed.

Lemma sum_single (x : Z) : sum [x] = x.
Proof. reflexivity. Qed.

Lemma window_total_single t start :
  datetime.ge (FinancialTransaction.transaction_date t) start = true ->
  window_total [t] start = FinancialTransaction.amount t.
Proof. intros H. unfold window_total. simpl. now rewrite H. Qed.

Lemma datetime_today_start_le_now (now : datetime.t) :
  datetime.valid now = true ->
  datetime.ge now (datetime.replace_midnight now) = true.
Proof.
  intros Hv. valid_bounds Hv. apply datetime_ge_iff. simpl.
  rewrite !Z.compare_refl.
  destruct (Z.compare_spec (datetime.hour now) 0); try congruence; try lia.
  destruct (Z.compare_spec (datetime.minute now) 0); try congruence; try lia.
  destruct (Z.compare_spec (datetime.second now) 0); try congruence; try lia.
  destruct (Z.compare_spec (datetime.microsecond now) 0);
    try congruence; lia.
Qed.

(** X12.  A payment shows at once in every sum: after a successful
    enrollment at a valid [now], the daily, weekly, monthly, yearly and
    all-time sums asked for at that same [now] are those before the
    enrollment plus the sum of the submitted prices when it is positive,
    and unchanged when it is not. *)
Theorem create_customer_then_financials
  customer current_user db now db' resp current_user' :
  datetime.valid now = true ->
  datetime.MINYEAR < datetime.year now ->
  create_customer customer current_user db now = Ok (db', resp) ->
  let paid := Z.max 0 (sum (CustomerCreate.prices customer)) in
  exists before after,
    get_financials current_user' db now = Ok before
    /\ get_financials current_user' db' now = Ok after
    /\ FinancialPeriod.daily (FinancialResponse.period after)
       = FinancialPeriod.daily (FinancialResponse.period before) + paid
    /\ FinancialPeriod.weekly (FinancialResponse.period after)
       = FinancialPeriod.weekly (FinancialResponse.period before) + paid
    /\ FinancialPeriod.monthly (FinancialResponse.period after)
       = FinancialPeriod.monthly (FinancialResponse.period before) + paid
    /\ FinancialPeriod.yearly (FinancialResponse.period after)
       = FinancialPeriod.yearly (FinancialResponse.period before) + paid
    /\ FinancialResponse.total after
       = FinancialResponse.total before + paid.
Proof.
  intros Hv Hy Hrun paid.
  destruct (datetime_week_start_exists now Hy) as [week_start Hws].
  rewrite create_customer_run in Hrun.
  destruct (code_accepted customer db); [|discriminate].
  cbv zeta in Hrun. injection Hrun as <- _.
  unfold get_financials. rewrite Hws. cbn [bind].
  do 2 eexists. split; [reflexivity|]. split; [reflexivity|].
  cbn [FinancialResponse.period FinancialResponse.total FinancialPeriod.daily
       FinancialPeriod.weekly FinancialPeriod.monthly FinancialPeriod.yearly
       financial_transactions].
  rewrite filter_app, !window_total_app, map_app, sum_app.
  pose proof (datetime_today_start_le_now now Hv) as Htoday.
  pose proof (datetime_ge_trans _ _ _ Htoday
                (datetime_sub_days_le _ _ _ Hws)) as Hweek.
  pose proof (datetime_ge_trans _ _ _ Htoday
                (datetime_month_start_le_today now Hv)) as Hmonth.
  pose proof (datetime_ge_trans _ _ _ Hmonth
                (datetime_year_start_le_month now Hv)) as Hyear.
  unfold paid.
  destruct (0 <? sum (CustomerCreate.prices customer)) eqn:Epos.
  - apply Z.ltb_lt in Epos. cbn [filter Bool.eqb FinancialTransaction_new
                                   FinancialTransaction.is_deleted].
    rewrite !window_total_single by assumption.
    cbn [map]. rewrite sum_single.
    cbn [FinancialTransaction_new FinancialTransaction.amount].
    repeat split; lia.
  - apply Z.ltb_ge in Epos. unfold window_total. simpl.
    rewrite !sum_nil. repeat split; lia.
Qed.

Lemma create_customer_then_financials_witness :
  exists before after,
    get_financials sample_staff sample_paid_session sample_later = Ok before
    /\ get_financials sample_staff
         (session_after sample_paid_session
            (create_customer (sample_enrollment [30] None) sample_admin
               sample_paid_session sample_later))
         sample_later = Ok after
    /\ FinancialPeriod.daily (FinancialResponse.period after)
       = FinancialPeriod.daily (FinancialResponse.period before) + 30
    /\ FinancialResponse.total after = FinancialResponse.total before + 30.
Proof.
  destruct (create_customer_then_financials (sample_enrollment [30] None)
              sample_admin sample_paid_session sample_later _ _ sample_staff
              eq_refl eq_refl eq_refl)
    as (before & after & Hb & Ha & Hd & _ & _ & _ & Ht).
  exists before, after. repeat split; assumption.
Defined.

Lemma live_after_cascade customer_id txs :
  filter (fun t => Bool.eqb (FinancialTransaction.is_deleted t) false)
    (update_all (cascade_target customer_id)
       (fun t => FinancialTransaction_set_is_deleted t true) txs)
  = filter (fun t => Bool.eqb (FinancialTransaction.is_deleted t) false)
      (filter (fun t => negb (FinancialTransaction.customer_id t
                              =? customer_id)) txs).
Proof.
  induction txs as [|t txs IH]; [reflexivity|].
  cbn [update_all map filter]. fold (update_all (cascade_target customer_id)
    (fun t => FinancialTransaction_set_is_deleted t true) txs).
  rewrite IH. unfold cascade_target.
  destruct (FinancialTransaction.customer_id t =? customer_id);
    destruct (FinancialTransaction.is_deleted t) eqn:Ed; simpl;
    rewrite ?Ed; reflexivity.
Qed.

Lemma owned_entries_In db txs tc :
  In tc (owned_entries db txs) ->
  In (fst tc) txs /\ owner db (fst tc) = Some (snd tc).
Proof.
  unfold owned_entries. rewrite in_flat_map. intros (t & Hin & Htc).
  destruct (owner db t) as [c|] eqn:Hown; [|destruct Htc].
  destruct (Customer.is_deleted c); [destruct Htc|].
  destruct Htc as [<-|[]]. simpl. auto.
Qed.

(** X13.  The payments of a soft-deleted customer count nowhere: after a
    successful [delete_customer], the sums of [get_financials] are those of
    the session before the deletion with that customer's transactions left
    out, and no detail entry names the customer. *)
Theorem delete_customer_then_financials
  customer_id current_user db now db' msg current_user' now' :
  datetime.MINYEAR < datetime.year now' ->
  delete_customer customer_id current_user db now = Ok (db', msg) ->
  exists after without,
    get_financials current_user' db' now' = Ok after
    /\ get_financials current_user'
         (mkSession (users db) (customers db) (partnership_codes db)
            (filter (fun t => negb (FinancialTransaction.customer_id t
                                    =? customer_id))
               (financial_transactions db)))
         now' = Ok without
    /\ FinancialResponse.period after = FinancialResponse.period without
    /\ FinancialResponse.total after = FinancialResponse.total without
    /\ forall d, In d (FinancialResponse.details after) ->
                 FinancialDetail.customer_id d <> customer_id.
Proof.
  intros Hy Hrun.
  destruct (datetime_week_start_exists now' Hy) as [week_start Hws].
  rewrite delete_customer_run in Hrun.
  destruct (first _) as [found|]; [|discriminate]. injection Hrun as <- _.
  unfold get_financials. rewrite Hws. cbn [bind].
  do 2 eexists. split; [reflexivity|]. split; [reflexivity|].
  cbn [FinancialResponse.period FinancialResponse.total
       FinancialResponse.details financial_transactions].
  rewrite live_after_cascade.
  split; [reflexivity|]. split; [reflexivity|].
  intros d Hd. rewrite details_loop_entries in Hd. simpl in Hd.
  apply in_map_iff in Hd. destruct Hd as ([tx own] & <- & Hin).
  apply owned_entries_In in Hin. destruct Hin as [Hin Hown].
  cbn [fst snd] in *. unfold detail_entry. simpl.
  apply filter_In in Hin. destruct Hin as [Hin _].
  apply filter_In in Hin. destruct Hin as [_ Hne].
  unfold owner in Hown.
  destruct (first_filter_Some _ _ _ Hown) as (_ & _ & _ & Hid & _).
  apply Z.eqb_eq in Hid. apply negb_true_iff in Hne. apply Z.eqb_neq in Hne.
  congruence.
Qed.

Lemma delete_customer_then_financials_witness :
  exists after,
    get_financials sample_staff
      (session_after sample_paid_session
         (delete_customer 1 sample_admin sample_paid_session sample_later))
      sample_later = Ok after
    /\ FinancialResponse.total after = 0
    /\ forall d, In d (FinancialResponse.details after) ->
                 FinancialDetail.customer_id d <> 1.
Proof.
  destruct (delete_customer_then_financials 1 sample_admin
              sample_paid_session sample_later _ _ sample_staff sample_later
              eq_refl eq_refl)
    as (after & without & Ha & Hw & _ & Ht & Hd).
  exists after. split; [exact Ha|]. split; [|exact Hd].
  rewrite Ht. vm_compute in Hw. injection Hw as <-. reflexivity.
Defined.

(** ** Customer listing *)

Lemma datetime_cmp_antisym (x y : list Z) :
  datetime._cmp x y = Lt -> datetime._cmp y x = Gt.
Proof.
  revert y. induction x as [|a x IH]; intros [|b y]; simpl; try discriminate;
    try reflexivity.
  rewrite (Z.compare_antisym a b).
  destruct (a ?= b); simpl; auto; discriminate.
Qed.

(** A date that is not at or after another is before it. *)
Lemma datetime_ge_total (a b : datetime.t) :
  datetime.ge a b = false -> datetime.ge b a = true.
Proof.
  unfold datetime.ge.
  destruct (datetime._cmp (datetime._getstate a) (datetime._getstate b))
    eqn:E; try discriminate.
  intros _. now rewrite (datetime_cmp_antisym _ _ E).
Qed.

Section OrderByDesc.
Context {A : Type} (col : A -> datetime.t).

Lemma insert_desc_perm (x : A) (rows : list A) :
  Permutation (insert_desc col x rows) (x :: rows).
Proof.
  induction rows as [|y rows IH]; simpl; [reflexivity|].
  destruct (datetime.ge (col x) (col y)); [reflexivity|].
  rewrite IH. apply perm_swap.
Qed.

Lemma order_by_desc_perm (rows : list A) :
  Permutation (order_by_desc col rows) rows.
Proof.
  induction rows as [|x rows IH]; simpl; [reflexivity|].
  rewrite insert_desc_perm. now constructor.
Qed.

Lemma insert_desc_sorted (x : A) (rows : list A) :
  StronglySorted (fun a b => datetime.ge (col a) (col b) = true) rows ->
  StronglySorted (fun a b => datetime.ge (col a) (col b) = true)
    (insert_desc col x rows).
Proof.
  induction 1 as [|y rows Hs IH Hy]; simpl.
  - repeat constructor.
  - destruct (datetime.ge (col x) (col y)) eqn:E.
    + constructor; [now constructor|].
      constructor; [exact E|].
      eapply Forall_impl; [|exact Hy].
      intros z Hz. simpl in Hz. eapply datetime_ge_trans; eauto.
    + constructor; [exact IH|].
      eapply Permutation_Forall; [symmetry; apply insert_desc_perm|].
      constructor; [now apply datetime_ge_total|exact Hy].
Qed.

Lemma order_by_desc_sorted (rows : list A) :
  StronglySorted (fun a b => datetime.ge (col a) (col b) = true)
    (order_by_desc col rows).
Proof.
  induction rows as [|x rows IH]; simpl; [constructor|].
  now apply insert_desc_sorted.
Qed.
End OrderByDesc.

Lemma get_customers_rows current_user db include_deleted :
  get_customers current_user db include_deleted
  = map (fun c => CustomerResponse.mk c
                    (json.loads_or_empty (Customer.camps c))
                    (json.loads_or_empty (Customer.prices c)))
      (order_by_desc Customer.created_at
         (if include_deleted then customers db
          else filter (fun c => negb (Customer.is_deleted c)) (customers db))).
Proof.
  unfold get_customers. cbv zeta.
  assert (Hloop : forall rows acc,
            fold_left
              (fun result customer =>
                 result ++ [CustomerResponse.mk customer
                              (json.loads_or_empty (Customer.camps customer))
                              (json.loads_or_empty (Customer.prices customer))])
              rows acc
            = acc ++ map (fun c => CustomerResponse.mk c
                                     (json.loads_or_empty (Customer.camps c))
                                     (json.loads_or_empty (Customer.prices c)))
                       rows).
  { induction rows as [|r rows IH]; intros acc; simpl.
    - now rewrite app_nil_r.
    - rewrite IH, <- app_assoc. reflexivity. }
  rewrite Hloop. destruct include_deleted; reflexivity.
Qed.

(** X14.  The customer listing holds each customer that is not deleted
    exactly once, and with [include_deleted] each customer of the table
    exactly once; it is ordered by creation time, newest first, and every
    entry carries the decoded camps and prices of its row. *)
Theorem get_customers_lists_live_newest_first
  current_user db include_deleted :
  let listing := get_customers current_user db include_deleted in
  Permutation (map CustomerResponse.row listing)
    (if include_deleted then customers db
     else filter (fun c => negb (Customer.is_deleted c)) (customers db))
  /\ StronglySorted
       (fun a b => datetime.ge (Customer.created_at a) (Customer.created_at b)
                   = true)
       (map CustomerResponse.row listing)
  /\ forall r, In r listing ->
       CustomerResponse.camps r
       = json.loads_or_empty (Customer.camps (CustomerResponse.row r))
       /\ CustomerResponse.prices r
          = json.loads_or_empty (Customer.prices (CustomerResponse.row r)).
Proof.
  cbv zeta. rewrite get_customers_rows, map_map. simpl. rewrite map_id.
  split; [apply order_by_desc_perm|].
  split; [apply order_by_desc_sorted|].
  intros r Hin. apply in_map_iff in Hin. destruct Hin as (c & <- & _).
  split; reflexivity.
Qed.

Lemma filter_all {A} (p : A -> bool) (rows : list A) :
  (forall r, In r rows -> p r = true) -> filter p rows = rows.
Proof.
  induction rows as [|r rows IH]; simpl; intros H; [reflexivity|].
  rewrite (H r (or_introl eq_refl)). f_equal. apply IH.
  intros r' Hin. apply H. now right.
Qed.

(** With unique ids, rewriting the row of an id into one the filter [q]
    rejects is, for [q], the same as removing that row. *)
Lemma filter_update_first_removed (q : Customer.t -> bool)
  (mark : Customer.t -> Customer.t) (customer_id : Z)
  (rows : list Customer.t) (found : Customer.t) :
  NoDup (map Customer.id rows) ->
  first (filter (fun c => Customer.id c =? customer_id) rows) = Some found ->
  q (mark found) = false ->
  filter q (update_first (fun c => Customer.id c =? customer_id) mark rows)
  = filter q (filter (fun c => negb (Customer.id c =? customer_id)) rows).
Proof.
  intros Hnd Hfirst Hq.
  destruct (first_filter_Some _ _ _ Hfirst)
    as (before & after & -> & Hid & Hbefore).
  rewrite update_first_split by assumption.
  rewrite !filter_app. cbn [filter]. rewrite Hq, Hid. cbn [negb].
  rewrite map_app in Hnd. simpl in Hnd. apply NoDup_remove_2 in Hnd.
  apply Z.eqb_eq in Hid.
  rewrite (filter_all (fun c => negb (Customer.id c =? customer_id)) before),
          (filter_all (fun c => negb (Customer.id c =? customer_id)) after).
  - reflexivity.
  - intros c Hc. apply negb_true_iff, Z.eqb_neq. intros Heq.
    apply Hnd. apply in_or_app. right. rewrite Hid, <- Heq. now apply in_map.
  - intros c Hc. apply negb_true_iff. now apply Hbefore.
Qed.

(** X15.  With unique customer ids, a soft-deleted customer is gone from
    the default listing and from the partnership statistics exactly as if
    its row had been removed, while the listing with [include_deleted]
    still shows it, flagged deleted. *)
Theorem delete_customer_then_listing_and_stats
  customer_id current_user db now db' msg current_user' :
  NoDup (map Customer.id (customers db)) ->
  delete_customer customer_id current_user db now = Ok (db', msg) ->
  let removed :=
    mkSession (users db)
      (filter (fun c => negb (Customer.id c =? customer_id)) (customers db))
      (partnership_codes db) (financial_transactions db) in
  get_customers current_user' db' false
  = get_customers current_user' removed false
  /\ get_partnership_stats current_user' db'
     = get_partnership_stats current_user' removed
  /\ exists r, In r (get_customers current_user' db' true)
               /\ Customer.id (CustomerResponse.row r) = customer_id
               /\ Customer.is_deleted (CustomerResponse.row r) = true.
Proof.
  intros Hnd Hrun removed.
  rewrite delete_customer_run in Hrun.
  destruct (first _) as [found|] eqn:Hfirst; [|discriminate].
  injection Hrun as <- _. split; [|split].
  - rewrite !get_customers_rows. cbn [customers removed].
    now rewrite (filter_update_first_removed _ _ _ _ found).
  - unfold get_partnership_stats. rewrite !stats_loop_entries. simpl.
    f_equal. apply map_ext. intros pc.
    unfold stats_entry, referred_by. cbn [customers removed].
    rewrite (filter_update_first_removed _ _ _ _ found); auto.
    simpl. apply andb_false_r.
  - destruct (first_filter_Some _ _ _ Hfirst)
      as (before & after & Hrows & Hid & Hbefore).
    eexists. split.
    + rewrite get_customers_rows. cbn [customers].
      apply in_map.
      eapply Permutation_in; [symmetry; apply order_by_desc_perm|].
      rewrite Hrows, update_first_split by assumption.
      apply in_or_app. right. left. reflexivity.
    + simpl. split; [now apply Z.eqb_eq|reflexivity].
Qed.

Lemma delete_customer_then_listing_and_stats_witness :
  get_customers sample_staff
    (session_after scenario_session
       (delete_customer 1 sample_admin scenario_session sample_later))
    false
  = get_customers sample_staff
      (mkSession (users scenario_session)
         (filter (fun c => negb (Customer.id c =? 1))
            (customers scenario_session))
         (partnership_codes scenario_session)
         (financial_transactions scenario_session))
      false.
Proof.
  assert (Hnd : NoDup (map Customer.id (customers scenario_session))).
  { simpl. repeat constructor; simpl; intuition discriminate. }
  destruct (delete_customer 1 sample_admin scenario_session sample_later)
    as [[db' msg]|e] eqn:Hrun; [|vm_compute in Hrun; discriminate].
  exact (proj1 (delete_customer_then_listing_and_stats 1 sample_admin
                  scenario_session sample_later db' msg sample_staff
                  Hnd Hrun)).
Defined.

(** ** User management and login *)

Lemma update_first_ext {A} (p : A -> bool) (f g : A -> A) (rows : list A) :
  (forall r, f r = g r) -> update_first p f rows = update_first p g rows.
Proof.
  intros Hfg. induction rows as [|r rows IH]; simpl; [reflexivity|].
  destruct (p r); [now rewrite Hfg|now rewrite IH].
Qed.

Lemma update_first_same {A} (p : A -> bool) (f : A -> A) (rows : list A) :
  (forall r, f r = r) -> update_first p f rows = rows.
Proof.
  intros Hf. induction rows as [|r rows IH]; simpl; [reflexivity|].
  destruct (p r); [now rewrite Hf|now rewrite IH].
Qed.

Lemma update_first_twice {A} (p : A -> bool) (f g : A -> A) (rows : list A) :
  (forall r, p (f r) = p r) ->
  update_first p g (update_first p f rows)
  = update_first p (fun r => g (f r)) rows.
Proof.
  intros Hp. induction rows as [|r rows IH]; simpl; [reflexivity|].
  destruct (p r) eqn:E; simpl.
  - now rewrite Hp, E.
  - now rewrite E, IH.
Qed.

Lemma first_filter_update_first {A} (p : A -> bool) (f : A -> A)
  (rows : list A) :
  (forall r, p (f r) = p r) ->
  first (filter p (update_first p f rows))
  = option_map f (first (filter p rows)).
Proof.
  intros Hp. induction rows as [|r rows IH]; simpl; [reflexivity|].
  destruct (p r) eqn:E; simpl.
  - now rewrite Hp, E.
  - now rewrite E.
Qed.

Lemma update_fields_idempotent user_data user :
  update_fields user_data (update_fields user_data user)
  = update_fields user_data user.
Proof.
  destruct user_data as [a b c d e f]. unfold update_fields. simpl.
  destruct a, b, c, d, e, f; reflexivity.
Qed.

Lemma update_fields_id user_data user :
  User.id (update_fields user_data user) = User.id user.
Proof.
  exact (f_equal (fun x => fst (fst x)) (update_fields_fixed user_data user)).
Qed.

Lemma update_fields_email user_data user :
  User.email (update_fields user_data user) = User.email user.
Proof.
  exact (f_equal (fun x => snd (fst x)) (update_fields_fixed user_data user)).
Qed.

(** X16.  DELETE /api/users/{id} does what PUT /api/users/{id} does with a
    body that only sets [is_active] to false: the two leave the same
    session, and succeed or fail together, with the same status. *)
Theorem delete_user_is_update_deactivate
  user_id current_user current_user' db :
  session_after db (delete_user user_id current_user db)
  = session_after db (update_user user_id update_deactivate current_user' db)
  /\ match delete_user user_id current_user db,
           update_user user_id update_deactivate current_user' db with
     | Ok _, Ok _ => True
     | Raise e, Raise e' => status_of e = status_of e'
     | _, _ => False
     end.
Proof.
  unfold delete_user, update_user.
  destruct (first _) as [user|]; [|split; reflexivity].
  destruct (is_protected _); split; reflexivity.
Qed.

(** X17.  A PUT /api/users/{id} whose body supplies no field changes
    nothing, whether it succeeds or not. *)
Theorem update_user_nothing_supplied user_id current_user db :
  session_after db (update_user user_id update_nothing current_user db) = db.
Proof.
  unfold update_user.
  destruct (first _) as [user|]; [|reflexivity].
  destruct (is_protected _); [reflexivity|].
  cbn [session_after]. rewrite update_first_same; [now destruct db|].
  intros r. now destruct r.
Qed.

(** X18.  PUT /api/users/{id} is idempotent: sending the same body a second
    time leaves the session the first request left. *)
Theorem update_user_idempotent
  user_id user_data current_user current_user' db :
  let db1 := session_after db
               (update_user user_id user_data current_user db) in
  session_after db1 (update_user user_id user_data current_user' db1) = db1.
Proof.
  cbv zeta. unfold update_user at 2 3.
  destruct (first (filter (fun u => User.id u =? user_id) (users db)))
    as [user|] eqn:Hfirst.
  - destruct (is_protected (User.email user)) eqn:Hprot;
      cbn [session_after]; unfold update_user.
    + now rewrite Hfirst, Hprot.
    + cbn [users]. rewrite first_filter_update_first, Hfirst
        by (intros r; now rewrite update_fields_id).
      cbn [option_map]. rewrite update_fields_email, Hprot.
      cbn [session_after customers partnership_codes financial_transactions].
      rewrite update_first_twice by (intros r; now rewrite update_fields_id).
      f_equal. apply update_first_ext. intros r.
      apply update_fields_idempotent.
  - cbn [session_after]. unfold update_user. now rewrite Hfirst.
Qed.

(** X19.  A token is issued only to a user of the table whose email is the
    submitted one, who is active and whose password verified; its subject
    is that email. *)
Theorem login_token_requires
  verify_password create_access_token minutes username password db
  access_token token_type user :
  login verify_password create_access_token minutes username password db
  = Token access_token token_type user ->
  In user (users db)
  /\ User.email user = username
  /\ User.is_active user = true
  /\ verify_password password (User.hashed_password user) = Some true
  /\ create_access_token username minutes = Some access_token
  /\ token_type = "bearer".
Proof.
  unfold login.
  destruct (first _) as [found|] eqn:Hfirst; [|discriminate].
  destruct (first_filter_Some _ _ _ Hfirst)
    as (before & after & Hrows & Hemail & _).
  apply String.eqb_eq in Hemail.
  destruct (verify_password password (User.hashed_password found))
    as [[|]|] eqn:Hpw; try discriminate.
  destruct (User.is_active found) eqn:Hact; [|discriminate]. simpl.
  destruct (create_access_token (User.email found) minutes) eqn:Htok;
    [|discriminate].
  intros [= <- <- <-]. rewrite Hemail in Htok.
  repeat split; auto.
  rewrite Hrows. apply in_or_app. right. now left.
Qed.

Lemma login_token_requires_witness :
  In sample_staff (users sample_users_session)
  /\ User.email sample_staff = "staff@kampus.com"
  /\ User.is_active sample_staff = true
  /\ sample_verify_password "z" (User.hashed_password sample_staff) = Some true
  /\ sample_create_access_token "staff@kampus.com" 30
     = Some "staff@kampus.com"
  /\ "bearer" = "bearer".
Proof.
  apply (login_token_requires sample_verify_password
           sample_create_access_token 30 "staff@kampus.com" "z"
           sample_users_session).
  reflexivity.
Defined.

(** X20.  Login answers an unknown email and a wrong password alike, with
    401 and the same detail; the wrong password of an inactive account gets
    that answer too, not the 403 of inactive accounts. *)
Theorem login_refusals_alike
  verify_password create_access_token minutes username password db :
  ((forall u, In u (users db) -> User.email u <> username) ->
   login verify_password create_access_token minutes username password db
   = LoginError 401 "Incorrect email or password")
  /\ (forall user,
        first (filter (fun u => String.eqb (User.email u) username) (users db))
        = Some user ->
        verify_password password (User.hashed_password user) = Some false ->
        login verify_password create_access_token minutes username password db
        = LoginError 401 "Incorrect email or password").
Proof.
  unfold login. split.
  - intros Hnone.
    assert (H : first (filter (fun u => String.eqb (User.email u) username)
                         (users db)) = None).
    { apply first_filter_None. intros u Hin. apply String.eqb_neq. auto. }
    now rewrite H.
  - intros user Hfirst Hpw. now rewrite Hfirst, Hpw.
Qed.

Lemma login_refusals_alike_witness :
  login sample_verify_password sample_create_access_token 30
    "nobody@kampus.com" "z" sample_users_session
  = LoginError 401 "Incorrect email or password"
  /\ login sample_verify_password sample_create_access_token 30
       "staff@kampus.com" "wrong" sample_users_session
     = LoginError 401 "Incorrect email or password".
Proof.
  split.
  - apply (proj1 (login_refusals_alike sample_verify_password
                    sample_create_access_token 30 "nobody@kampus.com" "z"
                    sample_users_session)).
    simpl. intros u [<-|[<-|[<-|[]]]]; discriminate.
  - apply (proj2 (login_refusals_alike sample_verify_password
                    sample_create_access_token 30 "staff@kampus.com" "wrong"
                    sample_users_session) sample_staff); reflexivity.
Defined.

(** X21.  With unique emails, a user deactivated through DELETE
    /api/users/{id} can no longer log in: the right password now gets 403,
    a wrong one 401, and no token is issued. *)
Theorem deactivated_user_cannot_login
  verify_password create_access_token minutes password
  user_id current_user db user :
  NoDup (map User.email (users db)) ->
  first (filter (fun u => User.id u =? user_id) (users db)) = Some user ->
  is_protected (User.email user) = false ->
  login verify_password create_access_token minutes (User.email user)
    password (session_after db (delete_user user_id current_user db))
  = match verify_password password (User.hashed_password user) with
    | None => LoginError 500 "An error occurred during login"
    | Some false => LoginError 401 "Incorrect email or password"
    | Some true => LoginError 403 "User account is inactive"
    end.
Proof.
  intros Hnd Hfirst Hprot. unfold delete_user. rewrite Hfirst, Hprot.
  cbn [session_after]. unfold login. cbn [users].
  destruct (first_filter_Some _ _ _ Hfirst)
    as (before & after & Hrows & Hid & Hbefore).
  rewrite Hrows, update_first_split by assumption.
  rewrite Hrows, map_app in Hnd. simpl in Hnd. apply NoDup_remove_2 in Hnd.
  rewrite (first_filter_split
             (fun u => String.eqb (User.email u) (User.email user))
             _ before (User_set_is_active user false) after eq_refl).
  - simpl. destruct (verify_password _ _) as [[|]|]; reflexivity.
  - simpl. apply String.eqb_refl.
  - intros u Hin. apply String.eqb_neq. intros Heq. apply Hnd.
    apply in_or_app. left. rewrite <- Heq. now apply in_map.
Qed.

Lemma deactivated_user_cannot_login_witness :
  login sample_verify_password sample_create_access_token 30
    "staff@kampus.com" "z"
    (session_after sample_users_session
       (delete_user 3 sample_admin sample_users_session))
  = LoginError 403 "User account is inactive".
Proof.
  apply (deactivated_user_cannot_login sample_verify_password
           sample_create_access_token 30 "z" 3 sample_admin
           sample_users_session sample_staff).
  - simpl. repeat constructor; simpl; intuition discriminate.
  - reflexivity.
  - reflexivity.
Defined.

(** X22.  A user that was just created can log in with the password given:
    when the password verifies against the hash that was stored and the
    token service answers, login issues the token for the new user. *)
Theorem created_user_can_login
  get_password_hash verify_password create_access_token minutes
  user_data current_user db db' user access_token :
  create_user get_password_hash user_data current_user db = Ok (db', user) ->
  verify_password (UserCreate.password user_data)
    (get_password_hash (UserCreate.password user_data)) = Some true ->
  create_access_token (UserCreate.email user_data) minutes
  = Some access_token ->
  login verify_password create_access_token minutes
    (UserCreate.email user_data) (UserCreate.password user_data) db'
  = Token access_token "bearer" user.
Proof.
  unfold create_user.
  destruct (first _) eqn:Hfirst; [discriminate|].
  intros [= <- <-] Hpw Htok. unfold login. cbn [add_user users].
  rewrite first_filter_None in Hfirst.
  erewrite first_filter_split;
    [| reflexivity | simpl; apply String.eqb_refl | exact Hfirst].
  simpl. now rewrite Hpw, Htok.
Qed.

Lemma created_user_can_login_witness :
  exists db' user,
    create_user sample_hash
      (UserCreate.mk "new@kampus.com" "pw" true false false false false)
      sample_admin sample_users_session = Ok (db', user)
    /\ login sample_verify_password sample_create_access_token 30
         "new@kampus.com" "pw" db'
       = Token "new@kampus.com" "bearer" user.
Proof.
  do 2 eexists. split; [reflexivity|].
  apply (created_user_can_login sample_hash sample_verify_password
           sample_create_access_token 30
           (UserCreate.mk "new@kampus.com" "pw" true false false false false)
           sample_admin sample_users_session); reflexivity.
Defined.

(** ** The week window *)



(** ** The two books *)

Lemma sum_perm (xs ys : list Z) : Permutation xs ys -> sum xs = sum ys.
Proof.
  induction 1 as [|x xs ys _ IH|x y xs|xs ys zs _ IH1 _ IH2].
  - reflexivity.
  - rewrite !sum_cons. lia.
  - rewrite !sum_cons. lia.
  - congruence.
Qed.

(** The sum of the decoded prices of the customer of id [i], 0 when no
    customer has it. *)
Lemma ledger_total_by_id db :
  ledger_consistent db ->
  exists price_of : Z -> Z,
    (forall c, In c (customers db) ->
               price_of (Customer.id c) = decoded_total c)
    /\ (forall t, In t (financial_transactions db) ->
                  FinancialTransaction.amount t
                  = price_of (FinancialTransaction.customer_id t)).
Proof.
  intros (Hids & _ & _ & Htx & _).
  exists (fun i =>
            match first (filter (fun c => Customer.id c =? i) (customers db))
            with
            | Some c => decoded_total c
            | None => 0
            end).
  assert (Hfind : forall c, In c (customers db) ->
            first (filter (fun c0 => Customer.id c0 =? Customer.id c)
                     (customers db)) = Some c).
  { intros c Hin.
    destruct (first (filter _ (customers db))) as [c0|] eqn:Hfirst.
    - destruct (first_filter_Some _ _ _ Hfirst)
        as (before & after & Hrows & Hid & _).
      apply Z.eqb_eq in Hid. f_equal.
      apply (NoDup_map_eq Customer.id (customers db)); auto.
      rewrite Hrows. apply in_or_app. right. now left.
    - rewrite first_filter_None in Hfirst. specialize (Hfirst c Hin).
      now rewrite Z.eqb_refl in Hfirst. }
  split.
  - intros c Hin. now rewrite Hfind.
  - intros t Hin. destruct (Htx t Hin) as (c & Hc & Hcid & Hamt & _).
    rewrite <- Hcid, Hfind by assumption. exact Hamt.
Qed.

Lemma NoDup_map_filter {A B} (g : A -> B) (p : A -> bool) (rows : list A) :
  NoDup (map g rows) -> NoDup (map g (filter p rows)).
Proof.
  induction rows as [|r rows IH]; simpl; [auto|].
  intros Hnd. apply NoDup_cons_iff in Hnd. destruct Hnd as [Hnotin Hnd].
  destruct (p r); simpl; [|auto].
  constructor; [|auto]. intros Hin. apply Hnotin.
  apply in_map_iff in Hin. destruct Hin as (r' & <- & Hr').
  apply filter_In in Hr'. apply in_map. tauto.
Qed.




